(** * Inception network assembly and record decoding

    A shallow embedding of

    - [tools/process_imagenet_data/check_record_data.py]
      ([parse_example_proto], the record decoder), and
    - [imagenet/model_inception.py] (class [Inception]: the constructor,
      [inference], the v3 and v4 graph constructions and [loss]),

    together with the properties the specification states about them.

    The Python code builds a dataflow graph: every call on the layer
    builder adds named operations to it and moves the builder's current
    top tensor.  The embedding keeps exactly that: a builder state with
    the stack of named operations, the top tensor and its channel count,
    threaded through a state-and-error monad. *)

From Stdlib Require Import ZArith QArith List String Lia.
From stdpp Require Import base option list strings gmap fin_maps.

Local Open Scope Z_scope.
Local Open Scope string_scope.

(** ** Failures *)

(** The failure taxonomy of the specification, and the built-in Python
    exceptions ([AssertionError], [KeyError], ...) under [PyError]. *)
Inductive error : Type :=
  | UnsupportedModel
  | InvalidBuildState
  | UnknownOperation
  | EmptyBranch
  | ShareIndexOutOfRange
  | ShapeMismatch
  | MalformedRecord
  | PyError (exn : string).

Inductive result (A : Type) : Type :=
  | Ok (a : A)
  | Err (e : error).
Arguments Ok {A} a.
Arguments Err {A} e.

#[global] Instance result_ret : MRet result := fun _ a => Ok a.
#[global] Instance result_bind : MBind result := fun _ _ f m =>
  match m with Ok a => f a | Err e => Err e end.
#[global] Instance result_fmap : FMap result := fun _ _ f m =>
  match m with Ok a => Ok (f a) | Err e => Err e end.

Definition is_ok {A} (r : result A) : bool :=
  match r with Ok _ => true | Err _ => false end.

Definition get_ok {A} (r : result A) : option A :=
  match r with Ok a => Some a | Err _ => None end.

(** ** The record decoder: [check_record_data.py] *)

Module RecordData.

(** *** The engine's record format

    A record is an [Example] message: a dictionary from feature names to
    one of three kinds of value lists.  The decoder only moves the float
    coordinates around and never computes on them, so exact rationals
    stand for the 32-bit floats. *)

Inductive dtype : Type := DT_STRING | DT_INT64 | DT_INT32 | DT_FLOAT.

#[global] Instance dtype_eq_dec : EqDecision dtype.
Proof. solve_decision. Defined.

Inductive Feature : Type :=
  | bytes_list (value : list string)
  | float_list (value : list Q)
  | int64_list (value : list Z).

Inductive data : Type :=
  | Strings (l : list string)
  | Ints (l : list Z)
  | Floats (l : list Q).

Inductive scalar : Type :=
  | SStr (s : string)
  | SInt (z : Z)
  | SFloat (q : Q).

(** A dense tensor: element type, static shape, elements in row-major
    order. *)
Record Tensor : Type := mkTensor {
  t_dtype : dtype;
  t_shape : list nat;
  t_data : data
}.

(** A sparse tensor of rank 1, as [VarLenFeature] produces it: the
    values, at indices [0 .. n-1], of a vector of dense shape [[n]]. *)
Record SparseTensor : Type := mkSparse {
  s_dtype : dtype;
  values : data;
  dense_shape : list nat
}.

Inductive parsed : Type :=
  | Dense (t : Tensor)
  | Sparse (s : SparseTensor).

Inductive feature_spec : Type :=
  | FixedLenFeature (shape : list nat) (dt : dtype) (default_value : option scalar)
  | VarLenFeature (dt : dtype).

Definition feature_data (f : Feature) : data :=
  match f with
  | bytes_list l => Strings l
  | float_list l => Floats l
  | int64_list l => Ints l
  end.

Definition feature_dtype (f : Feature) : dtype :=
  match f with
  | bytes_list _ => DT_STRING
  | float_list _ => DT_FLOAT
  | int64_list _ => DT_INT64
  end.

Definition data_length (d : data) : nat :=
  match d with
  | Strings l => length l
  | Ints l => length l
  | Floats l => length l
  end.

Definition scalar_dtype (s : scalar) : dtype :=
  match s with SStr _ => DT_STRING | SInt _ => DT_INT64 | SFloat _ => DT_FLOAT end.

(** [n] copies of a default value. *)
Definition full (n : nat) (s : scalar) : data :=
  match s with
  | SStr x => Strings (replicate n x)
  | SInt x => Ints (replicate n x)
  | SFloat x => Floats (replicate n x)
  end.

Definition num_elements (shape : list nat) : nat := foldr Nat.mul 1%nat shape.

(** [tf.parse_single_example] on one key.  A [FixedLenFeature] that the
    record lacks takes its [default_value] when the schema gives one and
    is an error otherwise; a present one must have the declared type and
    exactly as many values as the shape holds.  A [VarLenFeature] that
    the record lacks is the empty sparse vector. *)
Definition parse_feature (spec : feature_spec) (f : option Feature) : result parsed :=
  match spec with
  | FixedLenFeature shape dt default_value =>
      match f with
      | None =>
          match default_value with
          | Some d =>
              if decide (scalar_dtype d = dt)
              then Ok (Dense (mkTensor dt shape (full (num_elements shape) d)))
              else Err MalformedRecord
          | None => Err MalformedRecord
          end
      | Some ft =>
          if decide (feature_dtype ft = dt) then
            if decide (data_length (feature_data ft) = num_elements shape)
            then Ok (Dense (mkTensor dt shape (feature_data ft)))
            else Err MalformedRecord
          else Err MalformedRecord
      end
  | VarLenFeature dt =>
      match f with
      | None => Ok (Sparse (mkSparse dt (full 0 (match dt with
                                                 | DT_STRING => SStr ""
                                                 | DT_FLOAT => SFloat 0
                                                 | _ => SInt 0
                                                 end)) [0%nat]))
      | Some ft =>
          if decide (feature_dtype ft = dt)
          then Ok (Sparse (mkSparse dt (feature_data ft)
                             [data_length (feature_data ft)]))
          else Err MalformedRecord
      end
  end.

(** [tf.parse_single_example(serialized, features)]: every key of the
    schema is parsed; one failing key fails the whole call. *)
Definition parse_single_example (ex : gmap string Feature)
    (features : gmap string feature_spec) : result (gmap string parsed) :=
  let each := map_imap (fun k spec => Some (parse_feature spec (ex !! k))) features in
  if decide (map_Forall (fun _ r => is_ok r = true) each)
  then Ok (omap get_ok each)
  else Err MalformedRecord.

(** [features[k]] *)
Definition getitem (features : gmap string parsed) (k : string) : result parsed :=
  match features !! k with
  | Some v => Ok v
  | None => Err (PyError "KeyError")
  end.

(** [features[k].values] *)
Definition dot_values (p : parsed) : result (list Q) :=
  match p with
  | Sparse s =>
      match values s with
      | Floats l => Ok l
      | _ => Err (PyError "TypeError")
      end
  | Dense _ => Err (PyError "AttributeError")
  end.

(** Wrap-around of a 64-bit integer into 32 bits, as [tf.cast] to
    [tf.int32] does. *)
Definition wrap32 (z : Z) : Z := (z + 2 ^ 31) mod 2 ^ 32 - 2 ^ 31.

Definition cast_int32 (p : parsed) : result Tensor :=
  match p with
  | Dense t =>
      match t_data t with
      | Ints l => Ok (mkTensor DT_INT32 (t_shape t) (Ints (map wrap32 l)))
      | _ => Err (PyError "TypeError")
      end
  | Sparse _ => Err (PyError "TypeError")
  end.

Definition as_tensor (p : parsed) : result Tensor :=
  match p with
  | Dense t => Ok t
  | Sparse _ => Err (PyError "TypeError")
  end.

(** *** Float tensors of rank 1 to 3 as nested lists *)

Section FloatTensors.
Context {A : Type}.

(** [tf.expand_dims(x, 0)] *)
Definition expand_dims0 {B : Type} (x : B) : list B := [x].

Definition same_length (rows : list (list A)) : bool :=
  match rows with
  | [] => true
  | r :: rs => forallb (fun r' => Nat.eqb (length r') (length r)) rs
  end.

(** [tf.concat(axis=0, values)] on matrices: the rows are stacked, and
    all of them must have one length. *)
Definition concat0 (ts : list (list (list A))) : result (list (list A)) :=
  let rows := concat ts in
  if same_length rows then Ok rows else Err ShapeMismatch.

(** The transpose of a matrix of [n] columns. *)
Fixpoint transpose (n : nat) (rows : list (list A)) : list (list A) :=
  match n with
  | O => []
  | S n' => omap head rows :: transpose n' (map tail rows)
  end.

Definition num_columns (rows : list (list A)) : nat :=
  match rows with
  | [] => 0
  | r :: _ => length r
  end.

(** [tf.transpose(x, [0, 2, 1])] *)
Definition transpose021 (x : list (list (list A))) : list (list (list A)) :=
  map (fun m => transpose (num_columns m) m) x.
End FloatTensors.

(** *** [parse_example_proto] *)

Definition sparse_keys : list string :=
  ["image/object/bbox/xmin"; "image/object/bbox/ymin";
   "image/object/bbox/xmax"; "image/object/bbox/ymax"].

Definition feature_map : gmap string feature_spec :=
  let feature_map : gmap string feature_spec :=
    {[ "image/encoded" := FixedLenFeature [] DT_STRING (Some (SStr ""));
       "image/class/label" := FixedLenFeature [1%nat] DT_INT64 (Some (SInt (-1)));
       "image/class/text" := FixedLenFeature [] DT_STRING (Some (SStr ""));
       "image/height" := FixedLenFeature [1%nat] DT_INT64 (Some (SInt (-1)));
       "image/width" := FixedLenFeature [1%nat] DT_INT64 (Some (SInt (-1))) ]} in
  let sparse_float32 := VarLenFeature DT_FLOAT in
  (* feature_map.update({k: sparse_float32 for k in [...]}) *)
  list_to_map (map (fun k => (k, sparse_float32)) sparse_keys) ∪ feature_map.

(** The five tensors the function returns. *)
Definition returned : Type := (Tensor * Tensor * Tensor * Tensor * Tensor)%type.

(** The body of [parse_example_proto]: the local [bbox] and the returned
    tuple.  [bbox] is a node of the graph that none of the returned
    tensors is computed from, so a failure of its [tf.concat] (coordinate
    lists of different lengths) stays inside [bbox]. *)
Definition parse_example_proto_body (example_serialized : gmap string Feature)
    : result (result (list (list (list Q))) * returned) :=
  features ← parse_single_example example_serialized feature_map;
  label ← getitem features "image/class/label" ≫= cast_int32;
  xmin ← expand_dims0 <$> (getitem features "image/object/bbox/xmin" ≫= dot_values);
  ymin ← expand_dims0 <$> (getitem features "image/object/bbox/ymin" ≫= dot_values);
  xmax ← expand_dims0 <$> (getitem features "image/object/bbox/xmax" ≫= dot_values);
  ymax ← expand_dims0 <$> (getitem features "image/object/bbox/ymax" ≫= dot_values);
  let bbox := concat0 [ymin; xmin; ymax; xmax] in
  let bbox := expand_dims0 <$> bbox in
  let bbox := transpose021 <$> bbox in
  encoded ← getitem features "image/encoded" ≫= as_tensor;
  text ← getitem features "image/class/text" ≫= as_tensor;
  height ← getitem features "image/height" ≫= as_tensor;
  width ← getitem features "image/width" ≫= as_tensor;
  Ok (bbox, (encoded, label, text, height, width)).

Definition parse_example_proto (example_serialized : gmap string Feature)
    : result returned :=
  snd <$> parse_example_proto_body example_serialized.

(** The value of the local variable [bbox] when the function returns. *)
Definition parse_example_proto_bbox (example_serialized : gmap string Feature)
    : result (list (list (list Q))) :=
  parse_example_proto_body example_serialized ≫= fst.

(** The box list the specification describes: box [i] is
    [(ymin[i], xmin[i], ymax[i], xmax[i])]. *)
Fixpoint boxes (ymin xmin ymax xmax : list Q) : list (list Q) :=
  match ymin, xmin, ymax, xmax with
  | y :: ymin, x :: xmin, y' :: ymax, x' :: xmax =>
      [y; x; y'; x'] :: boxes ymin xmin ymax xmax
  | _, _, _, _ => []
  end.

(** The record of the specification's example. *)
Definition example_boxes : gmap string Feature :=
  {[ "image/encoded" := bytes_list ["JPEG"];
     "image/class/label" := int64_list [615];
     "image/class/text" := bytes_list ["knee pad"];
     "image/height" := int64_list [462];
     "image/width" := int64_list [581];
     "image/object/bbox/xmin" := float_list [1#10; 3#10]%Q;
     "image/object/bbox/ymin" := float_list [2#10; 4#10]%Q;
     "image/object/bbox/xmax" := float_list [9#10; 5#10]%Q;
     "image/object/bbox/ymax" := float_list [6#10; 7#10]%Q ]}.

(** *** The script: counting the records of a file

    Below the function the file is a script: it maps the decoder over
    the records of a file, then fetches the elements one by one, counting
    them, until the iterator is exhausted. *)

(** What [print] wrote. *)
Inductive printed : Type :=
  | print_int (n : Z)
  | print_str (s : string).

(** [dataset.map(f)]: the elements of the dataset, each with what [f]
    makes of it when the iterator reaches it. *)
Definition dataset_map {A B : Type} (f : A -> result B) (dataset : list A)
    : list (result B) :=
  map f dataset.

(** The [try: while True: ... except tf.errors.OutOfRangeError: ...] of
    the script, on the elements the iterator has left: the end of the
    data is the [OutOfRangeError] the handler catches, printing the count
    and "Done"; any other failure of [sess.run] is not caught and ends
    the script. *)
Fixpoint count_loop {B : Type} (iterator : list (result B)) (count : Z)
    : result (list printed) :=
  match iterator with
  | [] => Ok [print_int count; print_str "Done"]
  | Ok _ :: rest => count_loop rest (count + 1)
  | Err e :: _ => Err e
  end.

(** The script on a file holding [records]: what it prints, or the error
    it dies of. *)
Definition script (records : list (gmap string Feature)) : result (list printed) :=
  let dataset := records in
  let dataset := dataset_map parse_example_proto dataset in
  let iterator := dataset in
  let count := 0 in
  count_loop iterator count.

(** What a record holds under a key, as the decoder reads it: the
    schema's default where a fixed-length field is absent, nothing where
    a coordinate list is. *)
Definition strings_of (f : option Feature) : list string :=
  match f with
  | Some (bytes_list l) => l
  | Some _ => []
  | None => [""]
  end.

Definition ints_of (f : option Feature) : list Z :=
  match f with
  | Some (int64_list l) => l
  | Some _ => []
  | None => [-1]
  end.

Definition floats_of (f : option Feature) : list Q :=
  match f with
  | Some (float_list l) => l
  | _ => []
  end.

(** A record whose present fields are well-formed: each field the schema
    names has the declared type, and the fixed-length ones hold exactly
    one value. *)
Definition wellformed (ex : gmap string Feature) : Prop :=
  forall k f spec,
    ex !! k = Some f -> feature_map !! k = Some spec ->
    is_ok (parse_feature spec (Some f)) = true.

(** The defaults of the schema, as the values a record would hold. *)
Definition schema_default : gmap string Feature :=
  {[ "image/encoded" := bytes_list [""];
     "image/class/label" := int64_list [-1];
     "image/class/text" := bytes_list [""];
     "image/height" := int64_list [-1];
     "image/width" := int64_list [-1] ]}.

(** The record of the specification's example without its encoded
    image. *)
Definition example_no_image : gmap string Feature :=
  delete "image/encoded" example_boxes.

(** The record of the specification's example with other boxes. *)
Definition example_other_boxes : gmap string Feature :=
  <[ "image/object/bbox/xmin" := float_list [0.5%Q] ]>
    (<[ "image/object/bbox/ymin" := float_list [] ]> example_boxes).

(** A field as the schema wants it, said of the record itself: one
    string for the encoded image and the text, one integer for the label,
    the height and the width, a list of floats for each coordinate key, and
    anything at all under any other key. *)
Definition field_conforms (k : string) (f : Feature) : bool :=
  if bool_decide (k ∈ ["image/encoded"; "image/class/text"]) then
    match f with bytes_list [_] => true | _ => false end
  else if bool_decide (k ∈ ["image/class/label"; "image/height"; "image/width"]) then
    match f with int64_list [_] => true | _ => false end
  else if bool_decide (k ∈ sparse_keys) then
    match f with float_list _ => true | _ => false end
  else true.

Definition conforming (ex : gmap string Feature) : Prop :=
  forall k f, ex !! k = Some f -> field_conforms k f = true.

End RecordData.

(** ** The layer builder and the module composer *)

Module ConvNetBuilder.

(** Tensors are nodes of the graph under construction: the placeholders
    a caller passes in, and the outputs of the operations the builder has
    added, named by their position in the builder's operation stack. *)
Inductive tensor : Type :=
  | Placeholder (name : string)
  | Node (index : nat).

Inductive op : Type :=
  | Conv (num_out k_h k_w : Z) (d_h d_w : option Z) (mode : option string)
         (stddev : option Q) (batch_norm : bool)
  | MPool (k_h k_w d_h d_w : Z) (mode : string)
  | APool (k_h k_w d_h d_w : Z) (mode : string)
  | Reshape (shape : list Z)
  | Dropout (keep_prob : Q)
  | SpatialMean
  | Concat.

(** One entry of the stack of named operations: the module it was added
    under (the empty name outside any module), whether it was added on
    the auxiliary side branch, its inputs and its output channel count. *)
Record named_op : Type := mk_op {
  op_scope : string;
  op_aux : bool;
  op_kind : op;
  op_inputs : list tensor;
  op_channels : Z
}.

(** A layer descriptor is a Python tuple: a tag and its arguments. *)
Inductive arg : Type :=
  | AInt (z : Z)
  | AStr (s : string).

Definition layer : Type := (string * list arg)%type.

(** Modelled from the spec: the build context of [convnet_builder.py],
    which is not among the sources.  It owns the current top tensor, its
    channel count, the captured auxiliary tensor and the stack of named
    operations; [saved_primary] is the primary tensor put aside while the
    builder is switched to the auxiliary branch, and [modules] records
    the branch specifications handed to [inception_module], in order. *)
Record builder : Type := mk_builder {
  top_layer : tensor;
  top_size : Z;
  aux_top_layer : option tensor;
  aux_top_size : Z;
  saved_primary : option (tensor * Z);
  use_batch_norm : bool;
  phase_train : bool;
  use_tf_layers : bool;
  data_format : string;
  scope : string;
  ops : list named_op;
  modules : list (string * list (list layer))
}.

(** Modelled from the spec: the constructor call
    [ConvNetBuilder(images, 3, True, True, data_format)]: the input
    tensor, its channel count, two flags and the data layout. *)
Definition new (input_op : tensor) (input_nchan : Z) (phase_train use_tf_layers : bool)
    (data_format : string) : builder :=
  {| top_layer := input_op; top_size := input_nchan;
     aux_top_layer := None; aux_top_size := 0; saved_primary := None;
     use_batch_norm := false; phase_train := phase_train;
     use_tf_layers := use_tf_layers; data_format := data_format;
     scope := ""; ops := []; modules := [] |}.

(** *** The build monad: the builder threaded through, or a failure *)

Definition build (A : Type) : Type := builder -> result (A * builder).

#[global] Instance build_ret : MRet build := fun _ a cnn => Ok (a, cnn).
#[global] Instance build_bind : MBind build := fun _ _ f m cnn =>
  match m cnn with
  | Ok (a, cnn') => f a cnn'
  | Err e => Err e
  end.

Definition fail {A} (e : error) : build A := fun _ => Err e.
Definition get : build builder := fun cnn => Ok (cnn, cnn).
Definition modify (f : builder -> builder) : build unit := fun cnn => Ok (tt, f cnn).

Definition set_top (t : tensor) (size : Z) (cnn : builder) : builder :=
  {| top_layer := t; top_size := size;
     aux_top_layer := aux_top_layer cnn; aux_top_size := aux_top_size cnn;
     saved_primary := saved_primary cnn; use_batch_norm := use_batch_norm cnn;
     phase_train := phase_train cnn; use_tf_layers := use_tf_layers cnn;
     data_format := data_format cnn; scope := scope cnn; ops := ops cnn;
     modules := modules cnn |}.

Definition set_aux (t : option tensor) (size : Z) (cnn : builder) : builder :=
  {| top_layer := top_layer cnn; top_size := top_size cnn;
     aux_top_layer := t; aux_top_size := size;
     saved_primary := saved_primary cnn; use_batch_norm := use_batch_norm cnn;
     phase_train := phase_train cnn; use_tf_layers := use_tf_layers cnn;
     data_format := data_format cnn; scope := scope cnn; ops := ops cnn;
     modules := modules cnn |}.

Definition set_saved_primary (s : option (tensor * Z)) (cnn : builder) : builder :=
  {| top_layer := top_layer cnn; top_size := top_size cnn;
     aux_top_layer := aux_top_layer cnn; aux_top_size := aux_top_size cnn;
     saved_primary := s; use_batch_norm := use_batch_norm cnn;
     phase_train := phase_train cnn; use_tf_layers := use_tf_layers cnn;
     data_format := data_format cnn; scope := scope cnn; ops := ops cnn;
     modules := modules cnn |}.

Definition set_use_batch_norm (b : bool) (cnn : builder) : builder :=
  {| top_layer := top_layer cnn; top_size := top_size cnn;
     aux_top_layer := aux_top_layer cnn; aux_top_size := aux_top_size cnn;
     saved_primary := saved_primary cnn; use_batch_norm := b;
     phase_train := phase_train cnn; use_tf_layers := use_tf_layers cnn;
     data_format := data_format cnn; scope := scope cnn; ops := ops cnn;
     modules := modules cnn |}.

Definition set_scope (s : string) (cnn : builder) : builder :=
  {| top_layer := top_layer cnn; top_size := top_size cnn;
     aux_top_layer := aux_top_layer cnn; aux_top_size := aux_top_size cnn;
     saved_primary := saved_primary cnn; use_batch_norm := use_batch_norm cnn;
     phase_train := phase_train cnn; use_tf_layers := use_tf_layers cnn;
     data_format := data_format cnn; scope := s; ops := ops cnn;
     modules := modules cnn |}.

Definition push_op (o : named_op) (cnn : builder) : builder :=
  {| top_layer := top_layer cnn; top_size := top_size cnn;
     aux_top_layer := aux_top_layer cnn; aux_top_size := aux_top_size cnn;
     saved_primary := saved_primary cnn; use_batch_norm := use_batch_norm cnn;
     phase_train := phase_train cnn; use_tf_layers := use_tf_layers cnn;
     data_format := data_format cnn; scope := scope cnn; ops := ops cnn ++ [o];
     modules := modules cnn |}.

Definition push_module (name : string) (cols : list (list layer)) (cnn : builder)
    : builder :=
  {| top_layer := top_layer cnn; top_size := top_size cnn;
     aux_top_layer := aux_top_layer cnn; aux_top_size := aux_top_size cnn;
     saved_primary := saved_primary cnn; use_batch_norm := use_batch_norm cnn;
     phase_train := phase_train cnn; use_tf_layers := use_tf_layers cnn;
     data_format := data_format cnn; scope := scope cnn; ops := ops cnn;
     modules := modules cnn ++ [(name, cols)] |}.

(** *** Layer operations

    [convnet_builder.py] is not among the sources; the operations follow
    section 4.1 of the specification.  Every operation consumes the
    current top tensor and replaces it; an argument the caller leaves
    out stays [None] in the recorded operation. *)

(** Modelled from the spec: what every operation of the absent builder
    does to the build context: the operation joins the stack of named
    operations and its output becomes the top tensor. *)
Definition add_op (kind : op) (inputs : list tensor) (channels : Z) : build tensor :=
  fun cnn =>
    let t := Node (length (ops cnn)) in
    let o := mk_op (scope cnn) (bool_decide (is_Some (saved_primary cnn)))
                   kind inputs channels in
    Ok (t, set_top t channels (push_op o cnn)).

(** Modelled from the spec: the padding modes of the absent builder,
    SAME and VALID. *)
Definition known_mode (mode : string) : bool :=
  String.eqb mode "SAME" || String.eqb mode "VALID".

(** Modelled from the spec: an unknown padding tag fails with
    [UnknownOperation]. *)
Definition check_mode (mode : option string) : build unit :=
  match mode with
  | None => mret tt
  | Some m => if known_mode m then mret tt else fail UnknownOperation
  end.

(** Modelled from the spec: the constraints on the arguments of
    [convolution]: [out_channels > 0], [kh > 0], [kw > 0] and, for a
    stride that is given, [stride >= 1]. *)
Definition conv_constraints (num_out_channels k_height k_width : Z)
    (d_height d_width : option Z) : bool :=
  ((0 <? num_out_channels) && (0 <? k_height) && (0 <? k_width))%Z
  && from_option (Z.leb 1) true d_height && from_option (Z.leb 1) true d_width.

(** Modelled from the spec: [conv] of the absent builder
    ([convolution]): the channel count becomes [num_out_channels]; batch
    normalisation is applied if enabled.  Arguments outside the
    constraints are refused, with the engine's [ValueError]. *)
Definition conv (num_out_channels k_height k_width : Z) (d_height d_width : option Z)
    (mode : option string) (stddev : option Q) : build tensor :=
  check_mode mode;;
  (if conv_constraints num_out_channels k_height k_width d_height d_width
   then mret tt else fail (PyError "ValueError"));;
  cnn ← get;
  add_op (Conv num_out_channels k_height k_width d_height d_width mode stddev
               (use_batch_norm cnn))
         [top_layer cnn] num_out_channels.

(** Modelled from the spec: [mpool] of the absent builder ([max_pool]):
    the channel count is unchanged. *)
Definition mpool (k_height k_width d_height d_width : Z) (mode : string) : build tensor :=
  check_mode (Some mode);;
  cnn ← get;
  add_op (MPool k_height k_width d_height d_width mode) [top_layer cnn] (top_size cnn).

(** Modelled from the spec: [apool] of the absent builder ([avg_pool]):
    the channel count is unchanged. *)
Definition apool (k_height k_width d_height d_width : Z) (mode : string) : build tensor :=
  check_mode (Some mode);;
  cnn ← get;
  add_op (APool k_height k_width d_height d_width mode) [top_layer cnn] (top_size cnn).

(** Modelled from the spec: [reshape] of the absent builder: a view of
    the top tensor with the same elements. *)
Definition reshape (shape : list Z) : build tensor :=
  cnn ← get;
  add_op (Reshape shape) [top_layer cnn] (top_size cnn).

(** Modelled from the spec: [spatial_mean] of the absent builder, the
    mean over height and width that ends the v4 sequence; the channels
    stay. *)
Definition spatial_mean : build tensor :=
  cnn ← get;
  add_op SpatialMean [top_layer cnn] (top_size cnn).

(** Modelled from the spec: [dropout] of the absent builder: the
    identity outside training mode and at keep probability 1; otherwise
    a dropout operation replaces the top tensor.  The channel count is
    unchanged either way. *)
Definition dropout (keep_prob : Q) : build tensor :=
  cnn ← get;
  if negb (phase_train cnn) || Qeq_bool keep_prob 1
  then mret (top_layer cnn)
  else add_op (Dropout keep_prob) [top_layer cnn] (top_size cnn).

(** Modelled from the spec: [switch_to_aux_top_layer] of the absent
    builder ([switch_to_auxiliary / restore_primary]): a scope in which the operations act on
    the captured auxiliary tensor; on exit the auxiliary tensor is what
    they produced and the primary tensor is the top tensor again.
    Entering it twice, or with nothing captured, is an invalid state. *)
Definition switch_to_aux_top_layer {A} (body : build A) : build A :=
  cnn ← get;
  match saved_primary cnn, aux_top_layer cnn with
  | None, Some aux =>
      modify (fun cnn =>
                set_top aux (aux_top_size cnn)
                  (set_saved_primary (Some (top_layer cnn, top_size cnn)) cnn));;
      a ← body;
      modify (fun cnn' =>
                set_top (top_layer cnn) (top_size cnn)
                  (set_saved_primary None
                     (set_aux (Some (top_layer cnn')) (top_size cnn') cnn')));;
      mret a
  | _, _ => fail InvalidBuildState
  end.

(** *** The module composer *)

(** Modelled from the spec: one descriptor of [inception_module] of the
    absent builder (section 4.2, [apply_module]).  A share takes the
    tensor the preceding column produced at the same position, [prev]
    being what that column produced, position by position; any other
    descriptor is the layer operation of its tag, applied to its
    arguments in order. *)
Definition apply_layer (prev : list (tensor * Z)) (l : nat) (lay : layer) : build unit :=
  let '(ltype, args) := lay in
  if String.eqb ltype "share" then
    match prev !! l with
    | Some (t, size) => modify (set_top t size)
    | None => fail ShareIndexOutOfRange
    end
  else if String.eqb ltype "conv" then
    match args with
    | [AInt n; AInt kh; AInt kw] =>
        conv n kh kw None None None None;; mret tt
    | [AInt n; AInt kh; AInt kw; AInt dh] =>
        conv n kh kw (Some dh) None None None;; mret tt
    | [AInt n; AInt kh; AInt kw; AInt dh; AInt dw] =>
        conv n kh kw (Some dh) (Some dw) None None;; mret tt
    | [AInt n; AInt kh; AInt kw; AInt dh; AInt dw; AStr mode] =>
        conv n kh kw (Some dh) (Some dw) (Some mode) None;; mret tt
    | _ => fail (PyError "TypeError")
    end
  else if String.eqb ltype "mpool" then
    match args with
    | [AInt kh; AInt kw; AInt dh; AInt dw; AStr mode] =>
        mpool kh kw dh dw mode;; mret tt
    | _ => fail (PyError "TypeError")
    end
  else if String.eqb ltype "apool" then
    match args with
    | [AInt kh; AInt kw; AInt dh; AInt dw; AStr mode] =>
        apool kh kw dh dw mode;; mret tt
    | _ => fail (PyError "TypeError")
    end
  else fail UnknownOperation.

(** Modelled from the spec: one column of [inception_module], from
    position [l] on: the tensor and channel count after each of its
    operations. *)
Fixpoint apply_column (prev : list (tensor * Z)) (l : nat) (col : list layer)
    : build (list (tensor * Z)) :=
  match col with
  | [] => mret []
  | lay :: rest =>
      apply_layer prev l lay;;
      cnn ← get;
      done ← apply_column prev (S l) rest;
      mret ((top_layer cnn, top_size cnn) :: done)
  end.

(** Modelled from the spec: the columns of [inception_module], in
    order, each starting from the module's shared input; a column of no
    operation fails with [EmptyBranch]. *)
Fixpoint apply_columns (input : tensor * Z) (prev : list (tensor * Z))
    (cols : list (list layer)) : build (list (list (tensor * Z))) :=
  match cols with
  | [] => mret []
  | col :: rest =>
      match col with
      | [] => fail EmptyBranch
      | _ =>
          modify (set_top input.1 input.2);;
          this ← apply_column prev 0 col;
          others ← apply_columns input this rest;
          mret (this :: others)
      end
  end.

(** The sum of the channel counts of a list of tensors. *)
Definition sum_sizes (l : list (tensor * Z)) : Z := foldr (fun x acc => x.2 + acc) 0 l.

(** Modelled from the spec: [inception_module(name, cols)] of the
    absent builder: after all columns, their last tensors are
    concatenated along the channel axis, in column order, and the
    channel count is the sum of theirs. *)
Definition inception_module (name : string) (cols : list (list layer)) : build tensor :=
  cnn ← get;
  modify (fun c => set_scope name (push_module name cols c));;
  col_layers ← apply_columns (top_layer cnn, top_size cnn) [] cols;
  let lasts := omap (fun col => last col) col_layers in
  t ← add_op Concat (map fst lasts) (sum_sizes lasts);
  modify (set_scope (scope cnn));;
  mret t.

(** *** The shapes of the graph

    The engine infers the shape of every tensor of the graph from the
    shape of the input and the operations between them.  Shapes are
    lists of dimensions in the order of the data layout: channels last
    for "NHWC", channels second for "NCHW"; the batch is the first
    dimension in both. *)

Inductive layout : Type := channels_last | channels_first.

Definition layout_of (data_format : string) : result layout :=
  if String.eqb data_format "NHWC" then Ok channels_last
  else if String.eqb data_format "NCHW" then Ok channels_first
  else Err (PyError "ValueError").

(** The shape of a batch of feature maps. *)
Record image_shape : Type := mk_image {
  batch : Z;
  height : Z;
  width : Z;
  channels : Z
}.

Definition as_image (l : layout) (s : list Z) : result image_shape :=
  match l, s with
  | channels_last, [b; h; w; c] => Ok (mk_image b h w c)
  | channels_first, [b; c; h; w] => Ok (mk_image b h w c)
  | _, _ => Err ShapeMismatch
  end.

Definition of_image (l : layout) (i : image_shape) : list Z :=
  match l with
  | channels_last => [batch i; height i; width i; channels i]
  | channels_first => [batch i; channels i; height i; width i]
  end.

(** Modelled from the spec: the strides and the padding mode the absent
    builder takes when a call gives none.  The spec does not name them;
    the shape comments of [_construct_inception3] (35 x 35 before and
    after the 5x5 and 3x3 convolutions of module "a", which give neither)
    hold for stride 1 and SAME only. *)
Definition default_stride : Z := 1.
Definition default_mode : string := "SAME".

(** The engine's rule for a spatial dimension [n] under a window [k]
    moved by stride [s]: with SAME padding the ceiling of [n / s]; with
    VALID padding the ceiling of [(n - k + 1) / s], and a failure when
    the window does not fit. *)
Definition out_size (n k s : Z) (mode : string) : result Z :=
  if negb (0 <? s)%Z then Err (PyError "ValueError")
  else if String.eqb mode "SAME" then Ok ((n + s - 1) / s)
  else if String.eqb mode "VALID" then
    if (k <=? n)%Z then Ok ((n - k) / s + 1) else Err (PyError "ValueError")
  else Err UnknownOperation.

(** A convolution or a pooling: the window acts on height and width;
    a convolution sets the channels, a pooling keeps them. *)
Definition window (l : layout) (k_h k_w d_h d_w : Z) (mode : string)
    (out_channels : option Z) (s : list Z) : result (list Z) :=
  i ← as_image l s;
  h ← out_size (height i) k_h d_h mode;
  w ← out_size (width i) k_w d_w mode;
  Ok (of_image l (mk_image (batch i) h w (default (channels i) out_channels))).

Definition product (s : list Z) : Z := foldr Z.mul 1 s.

(** [tf.reshape]: the target keeps the number of elements; one
    dimension of the target may be -1 and is then computed. *)
Definition reshape_shape (target s : list Z) : result (list Z) :=
  let total := product s in
  let known := product (List.filter (fun d => negb (d =? -1)%Z) target) in
  match length (List.filter (fun d => (d =? -1)%Z) target) with
  | O => if (total =? known)%Z then Ok target else Err ShapeMismatch
  | S O =>
      if ((0 <? known) && (total mod known =? 0))%Z
      then Ok (map (fun d => if (d =? -1)%Z then total / known else d) target)
      else Err ShapeMismatch
  | _ => Err ShapeMismatch
  end.

(** Two feature maps that can be concatenated along the channels. *)
Definition same_extent (i j : image_shape) : bool :=
  ((batch j =? batch i) && (height j =? height i) && (width j =? width i))%Z.

(** The shape of the output of an operation, from those of its inputs. *)
Definition infer_op (l : layout) (o : op) (inputs : list (list Z)) : result (list Z) :=
  match o, inputs with
  | Conv n k_h k_w d_h d_w mode _ _, [s] =>
      window l k_h k_w (default default_stride d_h) (default default_stride d_w)
        (default default_mode mode) (Some n) s
  | MPool k_h k_w d_h d_w mode, [s] => window l k_h k_w d_h d_w mode None s
  | APool k_h k_w d_h d_w mode, [s] => window l k_h k_w d_h d_w mode None s
  | Reshape target, [s] => reshape_shape target s
  | Dropout _, [s] => Ok s
  | SpatialMean, [s] => i ← as_image l s; Ok [batch i; channels i]
  | Concat, s :: rest =>
      i ← as_image l s;
      others ← mapM (as_image l) rest;
      if forallb (same_extent i) others
      then Ok (of_image l (mk_image (batch i) (height i) (width i)
                             (channels i + foldr Z.add 0 (channels <$> others))))
      else Err ShapeMismatch
  | _, _ => Err ShapeMismatch
  end.

(** The shape of a tensor: that of the input for a placeholder, the
    inferred one for the output of an operation. *)
Definition tensor_shape (input : list Z) (known : list (list Z)) (t : tensor)
    : result (list Z) :=
  match t with
  | Placeholder _ => Ok input
  | Node i =>
      match known !! i with
      | Some s => Ok s
      | None => Err (PyError "KeyError")
      end
  end.

(** The shapes of the outputs of the operations of a stack, in order,
    after those already [known]. *)
Fixpoint infer_shapes (l : layout) (input : list Z) (known : list (list Z))
    (ops : list named_op) : result (list (list Z)) :=
  match ops with
  | [] => Ok known
  | o :: rest =>
      inputs ← mapM (tensor_shape input known) (op_inputs o);
      s ← infer_op l (op_kind o) inputs;
      infer_shapes l input (known ++ [s]) rest
  end.

(** The shape of tensor [t] in the graph of [cnn], when the input has
    shape [input]; no dimension of a shape is negative. *)
Definition shape_of (cnn : builder) (input : list Z) (t : tensor) : result (list Z) :=
  if forallb (Z.leb 0) input then
    l ← layout_of (data_format cnn);
    shapes ← infer_shapes l input [] (ops cnn);
    tensor_shape input shapes t
  else Err (PyError "ValueError").

(** The same shape with another batch dimension. *)
Definition rebatch (b : Z) (s : list Z) : list Z :=
  match s with
  | [] => []
  | _ :: rest => b :: rest
  end.

(** An operation that does not look at the batch dimension of its
    inputs: any but a reshape, and a reshape to [[-1, d, ...]] whose
    [d, ...] hold exactly the elements of one example. *)
Definition keeps_batch (o : op) (inputs : list (list Z)) : bool :=
  match o, inputs with
  | Reshape (d :: ds), [_ :: rest] =>
      ((d =? -1) && forallb (fun x => negb (x =? -1)) ds
       && (0 <? product ds) && (product rest =? product ds))%Z
  | Reshape _, _ => false
  | _, _ => true
  end.

(** Every operation of the stack keeps the batch dimension, on the
    shapes that the inference meets. *)
Fixpoint batch_stable (l : layout) (input : list Z) (known : list (list Z))
    (ops : list named_op) : bool :=
  match ops with
  | [] => true
  | o :: rest =>
      match mapM (tensor_shape input known) (op_inputs o) with
      | Ok inputs =>
          keeps_batch (op_kind o) inputs
          && match infer_op l (op_kind o) inputs with
             | Ok s => batch_stable l input (known ++ [s]) rest
             | Err _ => true
             end
      | Err _ => true
      end
  end.

Definition keeps_batch_throughout (cnn : builder) (input : list Z) : bool :=
  match layout_of (data_format cnn) with
  | Ok l => batch_stable l input [] (ops cnn)
  | Err _ => true
  end.

(** The same feature maps with another batch dimension. *)
Definition image_rebatch (b : Z) (i : image_shape) : image_shape :=
  mk_image b (height i) (width i) (channels i).

End ConvNetBuilder.

(** ** The network assembler: [model_inception.py] *)

Module Inception.
Import ConvNetBuilder.

Coercion AInt : Z >-> arg.
Coercion AStr : string >-> arg.

(** The tuple [(ltype, arg, ...)] of a column list. *)
Definition tup (ltype : string) (args : list arg) : layer := (ltype, args).

Notation "'tup(' t ')'" := (tup t nil) (at level 0, t at level 200).
Notation "'tup(' t , x , .. , y ')'" :=
  (tup t (cons (x : arg) .. (cons (y : arg) nil) ..))
  (at level 0, t at level 200, x at level 200, y at level 200).

Definition inception_list : list string := ["inception3"; "inception4"].

(** The attributes [__init__] assigns. *)
Record Inception : Type := mk_Inception {
  _auxiliary : bool;
  _image_size : Z;
  _data_format : string;
  _model : string;
  _image_shape : list Z
}.

(** What [tf.errors.InvalidArgumentError(None, None, message)] evaluates
    to: an exception object. *)
Inductive exception : Type :=
  | InvalidArgumentError (message : string).

(** [Inception.__init__].  For a model outside [inception_list] the
    exception object is created and dropped: the statement has no
    [raise]. *)
Definition __init__ (image_size : Z) (data_format : string) (batch_size : Z)
    (model : string) : result Inception :=
  let _unraised : option exception :=
    if negb (bool_decide (model ∈ inception_list))
    then Some (InvalidArgumentError "Network Model not found.")
    else None in
  let _image_shape :=
    if String.eqb data_format "NCHW"
    then [batch_size; 3; image_size; image_size]
    else [batch_size; image_size; image_size; 3] in
  Ok {| _auxiliary := false;
        _image_size := image_size;
        _data_format := data_format;
        _model := model;
        _image_shape := _image_shape |}.

(** [for _ in range(n): body] *)
Fixpoint for_range (n : nat) (body : build unit) : build unit :=
  match n with
  | O => mret tt
  | S n' => body;; for_range n' body
  end.

(** *** Inception v3 *)

(** The local [cols] of [inception_v3_a]. *)
Definition inception_v3_a_cols (n : Z) : list (list layer) :=
  [[tup("conv", 64, 1, 1)]; [tup("conv", 48, 1, 1); tup("conv", 64, 5, 5)];
   [tup("conv", 64, 1, 1); tup("conv", 96, 3, 3); tup("conv", 96, 3, 3)];
   [tup("apool", 3, 3, 1, 1, "SAME"); tup("conv", n, 1, 1)]].

Definition inception_v3_a (n : Z) : build unit :=
  let cols := inception_v3_a_cols n in
  inception_module "incept_v3_a" cols;; mret tt.

(** The local [cols] of [inception_v3_b]. *)
Definition inception_v3_b_cols : list (list layer) :=
  [[tup("conv", 384, 3, 3, 2, 2, "VALID")];
   [tup("conv", 64, 1, 1);
    tup("conv", 96, 3, 3);
    tup("conv", 96, 3, 3, 2, 2, "VALID")];
   [tup("mpool", 3, 3, 2, 2, "VALID")]].

Definition inception_v3_b : build unit :=
  let cols := inception_v3_b_cols in
  inception_module "incept_v3_b" cols;; mret tt.

(** The local [cols] of [inception_v3_c]. *)
Definition inception_v3_c_cols (n : Z) : list (list layer) :=
  [[tup("conv", 192, 1, 1)];
   [tup("conv", n, 1, 1); tup("conv", n, 1, 7); tup("conv", 192, 7, 1)];
   [tup("conv", n, 1, 1); tup("conv", n, 7, 1); tup("conv", n, 1, 7);
    tup("conv", n, 7, 1); tup("conv", 192, 1, 7)];
   [tup("apool", 3, 3, 1, 1, "SAME"); tup("conv", 192, 1, 1)]].

Definition inception_v3_c (n : Z) : build unit :=
  let cols := inception_v3_c_cols n in
  inception_module "incept_v3_c" cols;; mret tt.

(** The local [cols] of [inception_v3_d]. *)
Definition inception_v3_d_cols : list (list layer) :=
  [[tup("conv", 192, 1, 1); tup("conv", 320, 3, 3, 2, 2, "VALID")];
   [tup("conv", 192, 1, 1); tup("conv", 192, 1, 7); tup("conv", 192, 7, 1);
    tup("conv", 192, 3, 3, 2, 2, "VALID")];
   [tup("mpool", 3, 3, 2, 2, "VALID")]].

Definition inception_v3_d : build unit :=
  let cols := inception_v3_d_cols in
  inception_module "incept_v3_d" cols;; mret tt.

(** The local [cols] of [inception_v3_e]. *)
Definition inception_v3_e_cols (pooltype : string) : list (list layer) :=
  [[tup("conv", 320, 1, 1)]; [tup("conv", 384, 1, 1); tup("conv", 384, 1, 3)];
   [tup("share"); tup("conv", 384, 3, 1)];
   [tup("conv", 448, 1, 1); tup("conv", 384, 3, 3); tup("conv", 384, 1, 3)];
   [tup("share"); tup("share"); tup("conv", 384, 3, 1)];
   [tup((if String.eqb pooltype "max" then "mpool" else "apool"), 3, 3, 1, 1, "SAME");
    tup("conv", 192, 1, 1)]].

Definition inception_v3_e (pooltype : string) : build unit :=
  let cols := inception_v3_e_cols pooltype in
  inception_module "incept_v3_e" cols;; mret tt.

Definition incept_v3_aux : build unit :=
  cnn ← get;
  (* assert cnn.aux_top_layer is None *)
  match aux_top_layer cnn with
  | Some _ => fail (PyError "AssertionError")
  | None =>
      modify (fun cnn => set_aux (Some (top_layer cnn)) (aux_top_size cnn) cnn);;
      modify (fun cnn => set_aux (aux_top_layer cnn) (top_size cnn) cnn);;
      switch_to_aux_top_layer (
        apool 5 5 3 3 "VALID";;
        conv 128 1 1 None None (Some "SAME") None;;
        conv 768 5 5 None None (Some "VALID") (Some 0.01%Q);;
        reshape [-1; 768];;
        mret tt)
  end.

Definition _construct_inception3_body (self : Inception) : build tensor :=
  modify (set_use_batch_norm true);;
  conv 32 3 3 (Some 2) (Some 2) (Some "VALID") None;;
  conv 32 3 3 (Some 1) (Some 1) (Some "VALID") None;;
  conv 64 3 3 (Some 1) (Some 1) (Some "SAME") None;;
  mpool 3 3 2 2 "VALID";;
  conv 80 1 1 (Some 1) (Some 1) (Some "VALID") None;;
  conv 192 3 3 (Some 1) (Some 1) (Some "VALID") None;;
  mpool 3 3 2 2 "VALID";;
  inception_v3_a 32;;
  inception_v3_a 64;;
  inception_v3_a 64;;
  inception_v3_b;;
  inception_v3_c 128;;
  inception_v3_c 160;;
  inception_v3_c 160;;
  inception_v3_c 192;;
  (if _auxiliary self then incept_v3_aux else mret tt);;
  inception_v3_d;;
  inception_v3_e "avg";;
  inception_v3_e "max";;
  apool 8 8 1 1 "VALID";;
  last ← reshape [-1; 2048];
  mret last.

(** The value [_construct_inception3] returns, and the builder [cnn] as
    the construction leaves it. *)
Definition _construct_inception3_build (self : Inception) (images : tensor)
    : result (tensor * builder) :=
  let cnn := new images 3 true true (_data_format self) in
  _construct_inception3_body self cnn.

Definition _construct_inception3 (self : Inception) (images : tensor) : result tensor :=
  fst <$> _construct_inception3_build self images.

(** *** Inception v4 *)

(** The local [cols] of [inception_v4_a]. *)
Definition inception_v4_a_cols : list (list layer) :=
  [[tup("apool", 3, 3, 1, 1, "SAME"); tup("conv", 96, 1, 1)];
   [tup("conv", 96, 1, 1)]; [tup("conv", 64, 1, 1); tup("conv", 96, 3, 3)];
   [tup("conv", 64, 1, 1); tup("conv", 96, 3, 3); tup("conv", 96, 3, 3)]].

Definition inception_v4_a : build unit :=
  let cols := inception_v4_a_cols in
  inception_module "incept_v4_a" cols;; mret tt.

(** The local [cols] of [inception_v4_b]. *)
Definition inception_v4_b_cols : list (list layer) :=
  [[tup("apool", 3, 3, 1, 1, "SAME"); tup("conv", 128, 1, 1)];
   [tup("conv", 384, 1, 1)];
   [tup("conv", 192, 1, 1); tup("conv", 224, 1, 7); tup("conv", 256, 7, 1)];
   [tup("conv", 192, 1, 1); tup("conv", 192, 1, 7); tup("conv", 224, 7, 1);
    tup("conv", 224, 1, 7); tup("conv", 256, 7, 1)]].

Definition inception_v4_b : build unit :=
  let cols := inception_v4_b_cols in
  inception_module "incept_v4_b" cols;; mret tt.

(** The local [cols] of [inception_v4_c]. *)
Definition inception_v4_c_cols : list (list layer) :=
  [[tup("apool", 3, 3, 1, 1, "SAME"); tup("conv", 256, 1, 1)];
   [tup("conv", 256, 1, 1)]; [tup("conv", 384, 1, 1); tup("conv", 256, 1, 3)];
   [tup("share"); tup("conv", 256, 3, 1)];
   [tup("conv", 384, 1, 1); tup("conv", 448, 1, 3); tup("conv", 512, 3, 1);
    tup("conv", 256, 3, 1)]; [tup("share"); tup("share"); tup("share");
                              tup("conv", 256, 1, 3)]].

Definition inception_v4_c : build unit :=
  let cols := inception_v4_c_cols in
  inception_module "incept_v4_c" cols;; mret tt.

(* Stem functions *)
(** The local [cols] of [inception_v4_sa]. *)
Definition inception_v4_sa_cols : list (list layer) :=
  [[tup("mpool", 3, 3, 2, 2, "VALID")]; [tup("conv", 96, 3, 3, 2, 2, "VALID")]].

Definition inception_v4_sa : build unit :=
  let cols := inception_v4_sa_cols in
  inception_module "incept_v4_sa" cols;; mret tt.

(** The local [cols] of [inception_v4_sb]. *)
Definition inception_v4_sb_cols : list (list layer) :=
  [[tup("conv", 64, 1, 1); tup("conv", 96, 3, 3, 1, 1, "VALID")];
   [tup("conv", 64, 1, 1); tup("conv", 64, 7, 1); tup("conv", 64, 1, 7);
    tup("conv", 96, 3, 3, 1, 1, "VALID")]].

Definition inception_v4_sb : build unit :=
  let cols := inception_v4_sb_cols in
  inception_module "incept_v4_sb" cols;; mret tt.

(** The local [cols] of [inception_v4_sc]. *)
Definition inception_v4_sc_cols : list (list layer) :=
  [[tup("conv", 192, 3, 3, 2, 2, "VALID")];
   [tup("mpool", 3, 3, 2, 2, "VALID")]].

Definition inception_v4_sc : build unit :=
  let cols := inception_v4_sc_cols in
  inception_module "incept_v4_sc" cols;; mret tt.

(* Reduction functions *)
(** The local [cols] of [inception_v4_ra]. *)
Definition inception_v4_ra_cols (k l m n : Z) : list (list layer) :=
  [[tup("mpool", 3, 3, 2, 2, "VALID")]; [tup("conv", n, 3, 3, 2, 2, "VALID")];
   [tup("conv", k, 1, 1); tup("conv", l, 3, 3); tup("conv", m, 3, 3, 2, 2, "VALID")]].

Definition inception_v4_ra (k l m n : Z) : build unit :=
  let cols := inception_v4_ra_cols k l m n in
  inception_module "incept_v4_ra" cols;; mret tt.

(** The local [cols] of [inception_v4_rb]. *)
Definition inception_v4_rb_cols : list (list layer) :=
  [[tup("mpool", 3, 3, 2, 2, "VALID")];
   [tup("conv", 192, 1, 1); tup("conv", 192, 3, 3, 2, 2, "VALID")];
   [tup("conv", 256, 1, 1); tup("conv", 256, 1, 7); tup("conv", 320, 7, 1);
    tup("conv", 320, 3, 3, 2, 2, "VALID")]].

Definition inception_v4_rb : build unit :=
  let cols := inception_v4_rb_cols in
  inception_module "incept_v4_rb" cols;; mret tt.

Definition _construct_inception4_body (self : Inception) : build tensor :=
  modify (set_use_batch_norm true);;
  conv 32 3 3 (Some 2) (Some 2) (Some "VALID") None;;
  conv 32 3 3 (Some 1) (Some 1) (Some "VALID") None;;
  conv 64 3 3 None None None None;;
  inception_v4_sa;;
  inception_v4_sb;;
  inception_v4_sc;;
  for_range 4 inception_v4_a;;
  inception_v4_ra 192 224 256 384;;
  for_range 7 inception_v4_b;;
  inception_v4_rb;;
  for_range 3 inception_v4_c;;
  spatial_mean;;
  last ← dropout 0.8%Q;
  mret last.

Definition _construct_inception4_build (self : Inception) (images : tensor)
    : result (tensor * builder) :=
  let cnn := new images 3 true true (_data_format self) in
  _construct_inception4_body self cnn.

Definition _construct_inception4 (self : Inception) (images : tensor) : result tensor :=
  fst <$> _construct_inception4_build self images.

(** What [inference] returns, together with the builder of the
    construction it ran; Python's [None] when neither branch returns. *)
Definition inference_build (self : Inception) (images : tensor)
    : result (option (tensor * builder)) :=
  if String.eqb (_model self) "inception3" then
    Some <$> _construct_inception3_build self images
  else if String.eqb (_model self) "inception4" then
    Some <$> _construct_inception4_build self images
  else Ok None.

(** [Inception.inference] *)
Definition inference (self : Inception) (images : tensor) : result (option tensor) :=
  if String.eqb (_model self) "inception3" then
    Some <$> _construct_inception3 self images
  else if String.eqb (_model self) "inception4" then
    Some <$> _construct_inception4 self images
  else Ok None.

(** *** The loss *)

Definition Qsum (l : list Q) : Q := foldr Qplus 0%Q l.

Section Loss.
(** The engine's sparse softmax cross-entropy of one row of logits
    against its integer label.  It is made of exponentials and
    logarithms of floats, and [loss] only averages its values, so it
    is a parameter here and rationals stand for the floats. *)
Variable xent : list Q -> Z -> Q.

(** Every label names a class of its row of logits. *)
Definition labels_in_range (logits : list (list Q)) (labels : list Z) : bool :=
  forallb (fun p : list Q * Z => ((0 <=? p.2) && (p.2 <? Z.of_nat (length p.1)))%Z)
    (zip logits labels).

(** [tf.losses.sparse_softmax_cross_entropy(logits=, labels=)] with
    its default unit weight and default reduction: [labels] must have
    the shape of [logits] without the class axis, and every label must
    lie in [[0, num_classes)], else the engine fails with
    [InvalidArgumentError] (its CPU kernel; the GPU kernel gives NaN for
    that example instead); the per-example losses are weighted, summed
    and divided by the number of examples of non-zero weight (and the
    quotient is 0 when there is none). *)
Definition sparse_softmax_cross_entropy (logits : list (list Q)) (labels : list Z)
    : result Q :=
  if decide (length labels = length logits) then
    if labels_in_range logits labels then
      let losses := zip_with xent logits labels in
      let weights := 1%Q in
      let weighted := map (fun l => (l * weights)%Q) losses in
      let num_present :=
        if Qeq_bool weights 0 then 0%Q else inject_Z (Z.of_nat (length losses)) in
      Ok (if Qeq_bool num_present 0 then 0%Q else (Qsum weighted / num_present)%Q)
    else Err (PyError "InvalidArgumentError")
  else Err ShapeMismatch.

(** [tf.reduce_mean(x)] over all the elements of [x]. *)
Definition reduce_mean (x : list Q) : Q :=
  (Qsum x / inject_Z (Z.of_nat (length x)))%Q.

(** [Inception.loss]; [cross_entropy] is a scalar, a tensor of one
    element. *)
Definition loss (self : Inception) (logits : list (list Q)) (labels : list Z)
    : result Q :=
  cross_entropy ← sparse_softmax_cross_entropy logits labels;
  let loss := reduce_mean [cross_entropy] in
  Ok loss.

(** The loss as the specification words it: the arithmetic mean over
    the batch of the per-example cross-entropies. *)
Definition mean_cross_entropy (logits : list (list Q)) (labels : list Z) : Q :=
  (Qsum (zip_with xent logits labels) / inject_Z (Z.of_nat (length labels)))%Q.

(** *** The object over time

    The two public methods, as calls on an object.  Neither assigns an
    attribute of [self]: the object after a call is the object before
    it. *)
Inductive method : Type :=
  | call_inference (images : tensor)
  | call_loss (logits : list (list Q)) (labels : list Z).

Inductive outcome : Type :=
  | inference_returned (r : result (option tensor))
  | loss_returned (r : result Q).

Definition call (self : Inception) (m : method) : Inception * outcome :=
  match m with
  | call_inference images => (self, inference_returned (inference self images))
  | call_loss logits labels => (self, loss_returned (loss self logits labels))
  end.

(** The object after a sequence of calls. *)
Definition after (self : Inception) (ms : list method) : Inception :=
  fold_left (fun self m => (call self m).1) ms self.
End Loss.

(** *** Reading the operation stack *)

(** The calls the construction makes on the builder, read off the
    operation stack: an operation outside any module is a layer call,
    and every application of a module ends in its concatenation. *)
Inductive step : Type :=
  | layer_call (o : op)
  | module_call (name : string).

Definition is_concat (o : op) : bool :=
  match o with Concat => true | _ => false end.

Definition steps (ops : list named_op) : list step :=
  flat_map (fun o =>
              if String.eqb (op_scope o) "" then [layer_call (op_kind o)]
              else if is_concat (op_kind o) then [module_call (op_scope o)]
              else []) ops.

(** The channel count of a tensor the builder made. *)
Definition channels_of (cnn : builder) (t : tensor) : option Z :=
  match t with
  | Node i => op_channels <$> ops cnn !! i
  | Placeholder _ => None
  end.

(** *** Branch specifications *)

Definition is_share (lay : layer) : bool := String.eqb lay.1 "share".

(** The property the specification asks of a column: its first operation
    is not a share. *)
Definition share_first (col : list layer) : bool :=
  match col with
  | lay :: _ => is_share lay
  | [] => false
  end.

(** Every share of [col], at position [l] and beyond, has an operation
    at its position in the column [prev]. *)
Fixpoint shares_within (prev : list layer) (l : nat) (col : list layer) : bool :=
  match col with
  | [] => true
  | lay :: rest =>
      (negb (is_share lay) || bool_decide (l < length prev)%nat)
      && shares_within prev (S l) rest
  end.

(** Every share refers to an existing position of the column before its
    own; the first column, which has none before it, has no share. *)
Fixpoint shares_resolve (prev : list layer) (cols : list (list layer)) : bool :=
  match cols with
  | [] => true
  | col :: rest => shares_within prev 0 col && shares_resolve col rest
  end.

(** The branch specifications a construction handed to the composer. *)
Definition modules_of (r : result (tensor * builder))
    : list (string * list (list layer)) :=
  match r with
  | Ok (_, cnn) => modules cnn
  | Err _ => []
  end.

(** The property of section 3, over the branch specifications used: no
    column opens with a share. *)
Definition no_column_opens_with_share (ms : list (string * list (list layer)))
    : Prop :=
  forall name cols col, (name, cols) ∈ ms -> col ∈ cols -> share_first col = false.

(** The column lists of the module definitions, for every value of
    their parameters. *)
Inductive module_cols : list (list layer) -> Prop :=
  | cols_v3_a n : module_cols (inception_v3_a_cols n)
  | cols_v3_b : module_cols inception_v3_b_cols
  | cols_v3_c n : module_cols (inception_v3_c_cols n)
  | cols_v3_d : module_cols inception_v3_d_cols
  | cols_v3_e pooltype : module_cols (inception_v3_e_cols pooltype)
  | cols_v4_a : module_cols inception_v4_a_cols
  | cols_v4_b : module_cols inception_v4_b_cols
  | cols_v4_c : module_cols inception_v4_c_cols
  | cols_v4_sa : module_cols inception_v4_sa_cols
  | cols_v4_sb : module_cols inception_v4_sb_cols
  | cols_v4_sc : module_cols inception_v4_sc_cols
  | cols_v4_ra k l m n : module_cols (inception_v4_ra_cols k l m n)
  | cols_v4_rb : module_cols inception_v4_rb_cols.

(** The channel counts of the outputs of the modules applied, in
    order: those of the concatenations on the operation stack. *)
Definition module_widths (ops : list named_op) : list Z :=
  flat_map (fun o => if is_concat (op_kind o) then [op_channels o] else []) ops.

(** Whether an operation, when it is a convolution, is batch-normalised. *)
Definition batch_normed (o : named_op) : bool :=
  match op_kind o with
  | Conv _ _ _ _ _ _ _ batch_norm => batch_norm
  | _ => true
  end.

(** The number of descriptors of a column list that own an operation:
    all but the shares. *)
Definition owned (cols : list (list layer)) : nat :=
  sum_list (map (fun lay : layer => if is_share lay then 0%nat else 1%nat)
              (concat cols)).

(** The last operation on the stack. *)
Definition last_op (cnn : builder) : option named_op := last (ops cnn).

(** The descriptors of one column that own an operation. *)
Definition owned_in (col : list layer) : nat :=
  sum_list (map (fun lay : layer => if is_share lay then 0%nat else 1%nat) col).

(** What no layer operation changes: the captured auxiliary tensor, the
    tensor put aside, the flags, the layout, the scope and the record of
    the modules applied. *)
Definition same_frame (cnn cnn' : builder) : Prop :=
  aux_top_layer cnn' = aux_top_layer cnn
  /\ aux_top_size cnn' = aux_top_size cnn
  /\ saved_primary cnn' = saved_primary cnn
  /\ use_batch_norm cnn' = use_batch_norm cnn
  /\ phase_train cnn' = phase_train cnn
  /\ use_tf_layers cnn' = use_tf_layers cnn
  /\ data_format cnn' = data_format cnn
  /\ scope cnn' = scope cnn
  /\ modules cnn' = modules cnn.

(** The operation stack of [cnn'] is that of [cnn] with [n] operations
    on top. *)
Definition grows (cnn cnn' : builder) (n : nat) : Prop :=
  exists added, ops cnn' = (ops cnn ++ added)%list /\ length added = n.

(** The channel count of the top tensor after a piece of construction. *)
Definition top_size_after {A : Type} (m : build A) (cnn : builder) : option Z :=
  match m cnn with
  | Ok (_, cnn') => Some (top_size cnn')
  | Err _ => None
  end.

(** Every integer a descriptor of the column list carries is positive. *)
Definition all_positive (cols : list (list layer)) : bool :=
  forallb (forallb (fun lay : layer =>
             forallb (fun a => match a with AInt z => (0 <? z)%Z | AStr _ => true end)
               lay.2)) cols.

(** The objects and inputs of the examples. *)
Definition images0 : tensor := Placeholder "images".

Definition v3_object : Inception :=
  mk_Inception false 299 "NHWC" "inception3" [32; 299; 299; 3].

Definition v4_object : Inception :=
  mk_Inception false 299 "NHWC" "inception4" [32; 299; 299; 3].

End Inception.

(** * Properties of the record decoder *)

Module RecordDataFacts.
Import RecordData.

(** The transpose of the four stacked coordinate rows is the list of
    boxes. *)
Lemma transpose_coordinates (ymin xmin ymax xmax : list Q) :
  length xmin = length ymin -> length ymax = length ymin ->
  length xmax = length ymin ->
  transpose (length ymin) [ymin; xmin; ymax; xmax] = boxes ymin xmin ymax xmax.
Proof.
  revert xmin ymax xmax.
  induction ymin as [|y ymin IH]; intros [|x xmin] [|y' ymax] [|x' xmax];
    simpl; intros H1 H2 H3; try discriminate; try reflexivity.
  f_equal. apply IH; congruence.
Qed.

(** What lines 84 to 95 compute into [bbox] from four coordinate lists
    of one length: a tensor [[1, num_boxes, 4]] whose row [i] is
    [(ymin[i], xmin[i], ymax[i], xmax[i])]. *)
Lemma bbox_is_boxes (ymin xmin ymax xmax : list Q) :
  length xmin = length ymin -> length ymax = length ymin ->
  length xmax = length ymin ->
  transpose021 <$> (expand_dims0 <$>
      concat0 [expand_dims0 ymin; expand_dims0 xmin;
               expand_dims0 ymax; expand_dims0 xmax])
  = Ok [boxes ymin xmin ymax xmax].
Proof.
  intros H1 H2 H3. unfold concat0, expand_dims0. simpl.
  rewrite H1, H2, H3, Nat.eqb_refl. simpl.
  unfold transpose021. simpl. f_equal. f_equal.
  apply transpose_coordinates; assumption.
Qed.

Lemma boxes_lookup (ymin xmin ymax xmax : list Q) (i : nat) (y x y' x' : Q) :
  ymin !! i = Some y -> xmin !! i = Some x ->
  ymax !! i = Some y' -> xmax !! i = Some x' ->
  boxes ymin xmin ymax xmax !! i = Some [y; x; y'; x'].
Proof.
  revert ymin xmin ymax xmax.
  induction i as [|i IH]; intros [|a ymin] [|b xmin] [|c ymax] [|d xmax];
    simpl; intros Hy Hx Hy' Hx'; try discriminate.
  - congruence.
  - apply IH; assumption.
Qed.

(** Two records on which every key of the schema parses alike decode
    alike. *)
Lemma parse_single_example_ext (ex ex' : gmap string Feature)
    (fm : gmap string feature_spec) :
  (forall k spec, fm !! k = Some spec ->
     parse_feature spec (ex !! k) = parse_feature spec (ex' !! k)) ->
  parse_single_example ex fm = parse_single_example ex' fm.
Proof.
  intros Hk. unfold parse_single_example.
  assert (map_imap (fun k spec => Some (parse_feature spec (ex !! k))) fm
          = map_imap (fun k spec => Some (parse_feature spec (ex' !! k))) fm) as ->.
  { apply map_eq. intros k. rewrite !map_lookup_imap.
    destruct (fm !! k) as [spec|] eqn:E; simpl; [|reflexivity].
    by rewrite (Hk k spec E). }
  reflexivity.
Qed.

Lemma parse_example_proto_ext (ex ex' : gmap string Feature) :
  parse_single_example ex feature_map = parse_single_example ex' feature_map ->
  parse_example_proto ex = parse_example_proto ex'.
Proof.
  intros H. unfold parse_example_proto, parse_example_proto_body.
  by rewrite H.
Qed.

(** The five fixed-length keys, from the table of defaults. *)
Lemma schema_default_keys (k : string) (d : Feature) :
  schema_default !! k = Some d ->
  (k = "image/encoded" /\ d = bytes_list [""])
  \/ (k = "image/class/label" /\ d = int64_list [-1])
  \/ (k = "image/class/text" /\ d = bytes_list [""])
  \/ (k = "image/height" /\ d = int64_list [-1])
  \/ (k = "image/width" /\ d = int64_list [-1]).
Proof.
  unfold schema_default. intros H.
  repeat (apply lookup_insert_Some in H as [[<- <-]|[_ H]]; [tauto|]).
  apply lookup_singleton_Some in H as [<- <-]. tauto.
Qed.

(** A fixed-length key that a record lacks parses as its default. *)
Lemma parse_feature_default (k : string) (d : Feature) (spec : feature_spec) :
  schema_default !! k = Some d -> feature_map !! k = Some spec ->
  parse_feature spec None = parse_feature spec (Some d).
Proof.
  intros Hd Hs.
  destruct (schema_default_keys k d Hd)
    as [[-> ->]|[[-> ->]|[[-> ->]|[[-> ->]|[-> ->]]]]];
    vm_compute in Hs; injection Hs as <-; reflexivity.
Qed.

(** C1 (what the code does at the specification's example): the local
    [bbox] is the tensor [[[0.2,0.1,0.6,0.9], [0.4,0.3,0.7,0.5]]], box
    after box in the order (ymin, xmin, ymax, xmax); but the tuple the
    function returns is (encoded image, label, text, height, width),
    with no bounding boxes in it, and it is the same tuple for a record
    that has other boxes. *)
Theorem parse_example_proto_drops_bbox :
  parse_example_proto_bbox example_boxes
    = Ok [[[0.2; 0.1; 0.6; 0.9]; [0.4; 0.3; 0.7; 0.5]]]%Q
  /\ parse_example_proto example_boxes
     = Ok (mkTensor DT_STRING [] (Strings ["JPEG"]),
           mkTensor DT_INT32 [1%nat] (Ints [615]),
           mkTensor DT_STRING [] (Strings ["knee pad"]),
           mkTensor DT_INT64 [1%nat] (Ints [462]),
           mkTensor DT_INT64 [1%nat] (Ints [581]))
  /\ parse_example_proto example_other_boxes = parse_example_proto example_boxes.
Proof. repeat split; vm_compute; reflexivity. Qed.

(** C2 (as the specification states it, refuted): the record of the
    example without [image/encoded] is decoded, and the encoded image of
    the result is the default, the empty string. *)
Lemma missing_image_is_decoded :
  example_no_image !! "image/encoded" = None
  /\ parse_example_proto example_no_image
     = Ok (mkTensor DT_STRING [] (Strings [""]),
           mkTensor DT_INT32 [1%nat] (Ints [615]),
           mkTensor DT_STRING [] (Strings ["knee pad"]),
           mkTensor DT_INT64 [1%nat] (Ints [462]),
           mkTensor DT_INT64 [1%nat] (Ints [581]))
  /\ parse_example_proto example_no_image <> Err MalformedRecord.
Proof. repeat split; try (vm_compute; reflexivity). vm_compute. discriminate. Qed.

(** A record that lacks one of the five fixed-length fields is decoded
    exactly as the same record holding the schema's default in that
    field. *)
Lemma absent_field_as_default (ex : gmap string Feature) (k : string)
    (d : Feature) :
  schema_default !! k = Some d ->
  ex !! k = None ->
  parse_example_proto ex = parse_example_proto (<[k := d]> ex).
Proof.
  intros Hd Hk.
  apply parse_example_proto_ext, parse_single_example_ext.
  intros k' spec Hs.
  destruct (decide (k' = k)) as [->|Hne].
  - rewrite lookup_insert_eq, Hk. by apply (parse_feature_default k).
  - by rewrite lookup_insert_ne.
Qed.

(** No key of the schema fails on a record that lacks it. *)
Lemma absent_key_parses (k : string) (spec : feature_spec) :
  feature_map !! k = Some spec -> is_ok (parse_feature spec None) = true.
Proof.
  revert k spec.
  change (map_Forall (fun _ spec => is_ok (parse_feature spec None) = true)
            feature_map).
  apply (bool_decide_unpack _). vm_compute. exact I.
Qed.

(** What a key of the schema parses to, when it parses. *)
Lemma fixed_int64_parses (f : option Feature) :
  is_ok (parse_feature (FixedLenFeature [1%nat] DT_INT64 (Some (SInt (-1)))) f) = true ->
  parse_feature (FixedLenFeature [1%nat] DT_INT64 (Some (SInt (-1)))) f
  = Ok (Dense (mkTensor DT_INT64 [1%nat] (Ints (ints_of f)))).
Proof.
  destruct f as [[l|l|l]|]; simpl; repeat case_decide; try discriminate;
    reflexivity.
Qed.

Lemma fixed_string_parses (f : option Feature) :
  is_ok (parse_feature (FixedLenFeature [] DT_STRING (Some (SStr ""))) f) = true ->
  parse_feature (FixedLenFeature [] DT_STRING (Some (SStr ""))) f
  = Ok (Dense (mkTensor DT_STRING [] (Strings (strings_of f)))).
Proof.
  destruct f as [[l|l|l]|]; simpl; repeat case_decide; try discriminate;
    reflexivity.
Qed.

Lemma varlen_float_parses (f : option Feature) :
  is_ok (parse_feature (VarLenFeature DT_FLOAT) f) = true ->
  parse_feature (VarLenFeature DT_FLOAT) f
  = Ok (Sparse (mkSparse DT_FLOAT (Floats (floats_of f)) [length (floats_of f)])).
Proof.
  destruct f as [[l|l|l]|]; simpl; repeat case_decide; try discriminate;
    reflexivity.
Qed.

(** The parsed dictionary holds, under each key of the schema, what the
    key parsed to. *)
Lemma parsed_lookup (ex : gmap string Feature) (k : string) (spec : feature_spec) :
  feature_map !! k = Some spec ->
  omap get_ok (map_imap (fun k spec => Some (parse_feature spec (ex !! k)))
                 feature_map) !! k
  = get_ok (parse_feature spec (ex !! k)).
Proof. intros E. by rewrite lookup_omap, map_lookup_imap, E. Qed.

(** The decoder on a well-formed record, in closed form: it returns, and
    the local [bbox] and the five returned tensors are read off the
    record as follows. *)
Lemma decode_wellformed (ex : gmap string Feature) :
  wellformed ex ->
  parse_example_proto_body ex
  = Ok (transpose021 <$> (expand_dims0 <$>
          concat0 [expand_dims0 (floats_of (ex !! "image/object/bbox/ymin"));
                   expand_dims0 (floats_of (ex !! "image/object/bbox/xmin"));
                   expand_dims0 (floats_of (ex !! "image/object/bbox/ymax"));
                   expand_dims0 (floats_of (ex !! "image/object/bbox/xmax"))]),
        (mkTensor DT_STRING [] (Strings (strings_of (ex !! "image/encoded"))),
         mkTensor DT_INT32 [1%nat]
           (Ints (map wrap32 (ints_of (ex !! "image/class/label")))),
         mkTensor DT_STRING [] (Strings (strings_of (ex !! "image/class/text"))),
         mkTensor DT_INT64 [1%nat] (Ints (ints_of (ex !! "image/height"))),
         mkTensor DT_INT64 [1%nat] (Ints (ints_of (ex !! "image/width"))))).
Proof.
  intros Hpresent.
  assert (forall k spec, feature_map !! k = Some spec ->
            is_ok (parse_feature spec (ex !! k)) = true) as Hall.
  { intros k spec Hs. destruct (ex !! k) as [f|] eqn:E.
    - by apply (Hpresent k).
    - by apply (absent_key_parses k). }
  pose proof (fun k spec (E : feature_map !! k = Some spec) =>
                conj (Hall k spec E) (parsed_lookup ex k spec E)) as Hkey.
  destruct (Hkey "image/encoded" _ ltac:(vm_compute; reflexivity)) as [Ho Ee].
  destruct (Hkey "image/class/label" _ ltac:(vm_compute; reflexivity)) as [Hl El].
  destruct (Hkey "image/class/text" _ ltac:(vm_compute; reflexivity)) as [Ht Et].
  destruct (Hkey "image/height" _ ltac:(vm_compute; reflexivity)) as [Hh Eh].
  destruct (Hkey "image/width" _ ltac:(vm_compute; reflexivity)) as [Hw Ew].
  destruct (Hkey "image/object/bbox/xmin" _ ltac:(vm_compute; reflexivity))
    as [Hx Ex].
  destruct (Hkey "image/object/bbox/ymin" _ ltac:(vm_compute; reflexivity))
    as [Hy Ey].
  destruct (Hkey "image/object/bbox/xmax" _ ltac:(vm_compute; reflexivity))
    as [Hx' Ex'].
  destruct (Hkey "image/object/bbox/ymax" _ ltac:(vm_compute; reflexivity))
    as [Hy' Ey'].
  clear Hkey.
  rewrite (fixed_string_parses _ Ho) in Ee. rewrite (fixed_int64_parses _ Hl) in El.
  rewrite (fixed_string_parses _ Ht) in Et. rewrite (fixed_int64_parses _ Hh) in Eh.
  rewrite (fixed_int64_parses _ Hw) in Ew. rewrite (varlen_float_parses _ Hx) in Ex.
  rewrite (varlen_float_parses _ Hy) in Ey. rewrite (varlen_float_parses _ Hx') in Ex'.
  rewrite (varlen_float_parses _ Hy') in Ey'.
  unfold parse_example_proto_body, parse_single_example.
  destruct (decide (map_Forall (fun _ r => is_ok r = true)
              (map_imap (fun k spec => Some (parse_feature spec (ex !! k)))
                 feature_map))) as [_|Hno].
  2: { exfalso. apply Hno. intros k r Hr. rewrite map_lookup_imap in Hr.
       destruct (feature_map !! k) as [spec|] eqn:E; simpl in Hr; [|discriminate].
       injection Hr as <-. by apply Hall. }
  cbn [mbind result_bind fmap result_fmap].
  unfold getitem. rewrite Ee, El, Et, Eh, Ew, Ex, Ey, Ex', Ey'.
  reflexivity.
Qed.

(** On every well-formed record whose four coordinate lists have one
    length, the local [bbox] is the list of boxes of the specification:
    box [i] is [(ymin[i], xmin[i], ymax[i], xmax[i])]. *)
Lemma bbox_of_wellformed (ex : gmap string Feature) :
  wellformed ex ->
  let ymin := floats_of (ex !! "image/object/bbox/ymin") in
  let xmin := floats_of (ex !! "image/object/bbox/xmin") in
  let ymax := floats_of (ex !! "image/object/bbox/ymax") in
  let xmax := floats_of (ex !! "image/object/bbox/xmax") in
  length xmin = length ymin -> length ymax = length ymin ->
  length xmax = length ymin ->
  parse_example_proto_bbox ex = Ok [boxes ymin xmin ymax xmax].
Proof.
  intros Hwf ymin xmin ymax xmax H1 H2 H3.
  unfold parse_example_proto_bbox. rewrite (decode_wellformed ex Hwf).
  cbn [mbind result_bind fst].
  by apply bbox_is_boxes.
Qed.

(** C2 (amended): the decoder never fails because a field is absent.  A
    record whose present fields are well-formed (each of the type the
    schema declares, the five fixed-length ones holding one value) is
    decoded, and every fixed-length field it lacks takes the schema's
    default: the empty string for [image/encoded] and [image/class/text],
    -1 for the label, the height and the width. *)
Theorem absent_fields_take_defaults (ex : gmap string Feature) :
  wellformed ex ->
  exists encoded label text height width,
    parse_example_proto ex = Ok (encoded, label, text, height, width)
    /\ (ex !! "image/encoded" = None ->
        encoded = mkTensor DT_STRING [] (Strings [""]))
    /\ (ex !! "image/class/label" = None ->
        label = mkTensor DT_INT32 [1%nat] (Ints [-1]))
    /\ (ex !! "image/class/text" = None ->
        text = mkTensor DT_STRING [] (Strings [""]))
    /\ (ex !! "image/height" = None ->
        height = mkTensor DT_INT64 [1%nat] (Ints [-1]))
    /\ (ex !! "image/width" = None ->
        width = mkTensor DT_INT64 [1%nat] (Ints [-1])).
Proof.
  intros Hwf. unfold parse_example_proto.
  rewrite (decode_wellformed ex Hwf). cbn [fmap result_fmap snd].
  eexists _, _, _, _, _. split; [reflexivity|].
  repeat split; intros ->; reflexivity.
Qed.

Lemma absent_fields_take_defaults_witness :
  exists encoded label text height width,
    parse_example_proto example_no_image = Ok (encoded, label, text, height, width)
    /\ (example_no_image !! "image/encoded" = None ->
        encoded = mkTensor DT_STRING [] (Strings [""]))
    /\ (example_no_image !! "image/class/label" = None ->
        label = mkTensor DT_INT32 [1%nat] (Ints [-1]))
    /\ (example_no_image !! "image/class/text" = None ->
        text = mkTensor DT_STRING [] (Strings [""]))
    /\ (example_no_image !! "image/height" = None ->
        height = mkTensor DT_INT64 [1%nat] (Ints [-1]))
    /\ (example_no_image !! "image/width" = None ->
        width = mkTensor DT_INT64 [1%nat] (Ints [-1])).
Proof.
  apply (absent_fields_take_defaults example_no_image).
  intros k f spec Hk Hs.
  assert (map_Forall
            (fun k f =>
               from_option (fun spec => is_ok (parse_feature spec (Some f)))
                 true (feature_map !! k) = true)
            example_no_image) as HF.
  { apply (bool_decide_unpack _). vm_compute. exact I. }
  specialize (HF k f Hk). cbv beta in HF. rewrite Hs in HF. exact HF.
Defined.

End RecordDataFacts.

(** * Properties of the network assembler *)

Module InceptionFacts.
Import ConvNetBuilder Inception.

Lemma forallb_not_aux (l : list named_op) :
  forallb (fun o => negb (op_aux o)) l = true ->
  Forall (fun o => op_aux o = false) l.
Proof.
  induction l as [|o l IH]; simpl; intros H; constructor.
  - destruct (op_aux o); [discriminate|reflexivity].
  - apply IH. destruct (op_aux o); [discriminate|assumption].
Qed.

Lemma forallb_shares_resolve (l : list (string * list (list layer))) :
  forallb (fun m => shares_resolve [] m.2) l = true ->
  Forall (fun m => shares_resolve [] m.2 = true) l.
Proof.
  induction l as [|m l IH]; simpl; intros H; constructor;
    apply andb_prop in H as [H1 H2]; auto.
Qed.

(** No method changes the object. *)
Lemma after_same (xent : list Q -> Z -> Q) (self : Inception) (ms : list method) :
  after xent self ms = self.
Proof.
  unfold after. induction ms as [|m ms IH]; simpl; [reflexivity|].
  destruct m; simpl; exact IH.
Qed.

(** [inference] returns what the construction it ran returned. *)
Lemma inference_of_build (self : Inception) (images : tensor) :
  inference self images
  = (fun o : option (tensor * builder) => fst <$> o) <$> inference_build self images.
Proof.
  unfold inference, inference_build, _construct_inception3, _construct_inception4.
  destruct (String.eqb (_model self) "inception3");
    [destruct (_construct_inception3_build self images) as [[]|]; reflexivity|].
  destruct (String.eqb (_model self) "inception4");
    [destruct (_construct_inception4_build self images) as [[]|]; reflexivity|].
  reflexivity.
Qed.

Lemma not_in_inception_list (model : string) :
  model ∉ inception_list ->
  String.eqb model "inception3" = false /\ String.eqb model "inception4" = false.
Proof.
  intros H. split; apply String.eqb_neq; intros ->; apply H;
    unfold inception_list; set_solver.
Qed.

(** C3 (what the code does at the specification's example): the
    constructor completes for the model "inception5", which is not in
    [inception_list], and returns an object holding that name. *)
Theorem init_inception5_completes :
  ("inception5" ∉ inception_list)
  /\ __init__ 299 "NHWC" 32 "inception5"
     = Ok (mk_Inception false 299 "NHWC" "inception5" [32; 299; 299; 3]).
Proof.
  split; [|reflexivity].
  unfold inception_list. intros H.
  apply elem_of_cons in H as [H|H]; [discriminate|].
  apply elem_of_cons in H as [H|H]; [discriminate|].
  by apply elem_of_nil in H.
Qed.

(** C9: for a model name that is neither 'inception3' nor 'inception4'
    the constructor completes, and every later call of [inference] on
    the object, whatever was called before, returns [None]. *)
Theorem unknown_model_inference_is_None (xent : list Q -> Z -> Q)
    (image_size : Z) (data_format : string) (batch_size : Z) (model : string) :
  model ∉ inception_list ->
  exists obj,
    __init__ image_size data_format batch_size model = Ok obj
    /\ forall ms images, inference (after xent obj ms) images = Ok None.
Proof.
  intros Hm. destruct (not_in_inception_list model Hm) as [H3 H4].
  eexists. split; [reflexivity|].
  intros ms images. rewrite after_same.
  unfold inference. cbn [_model]. by rewrite H3, H4.
Qed.

Lemma unknown_model_inference_is_None_witness :
  exists obj,
    __init__ 299 "NHWC" 32 "inception5" = Ok obj
    /\ forall ms images,
         inference (after (fun _ _ => 0%Q) obj ms) images = Ok None.
Proof.
  apply (unknown_model_inference_is_None (fun _ _ => 0%Q) 299 "NHWC" 32 "inception5").
  unfold inception_list. intros H.
  apply elem_of_cons in H as [H|H]; [discriminate|].
  apply elem_of_cons in H as [H|H]; [discriminate|].
  by apply elem_of_nil in H.
Defined.

(** The auxiliary head, when it runs, captures a tensor and adds
    operations on the side branch: with the flag set by hand, the v3
    construction shows both. *)
Lemma auxiliary_head_when_flagged :
  exists last cnn,
    _construct_inception3_build
      (mk_Inception true 299 "NHWC" "inception3" [32; 299; 299; 3]) images0
    = Ok (last, cnn)
    /\ aux_top_layer cnn = Some (Node 91)
    /\ aux_top_size cnn = 768
    /\ existsb op_aux (ops cnn) = true.
Proof.
  eexists _, _. split; [vm_compute; reflexivity|].
  repeat split; vm_compute; reflexivity.
Qed.

(** C10: the constructor sets [_auxiliary] to [False]; no sequence of
    method calls changes it; and every construction that [inference]
    then runs ends with no auxiliary tensor captured and with no
    operation added on the auxiliary branch. *)
Theorem auxiliary_head_never_built (xent : list Q -> Z -> Q)
    (image_size : Z) (data_format : string) (batch_size : Z) (model : string) :
  exists obj,
    __init__ image_size data_format batch_size model = Ok obj
    /\ _auxiliary obj = false
    /\ forall ms images,
         _auxiliary (after xent obj ms) = false
         /\ match inference_build (after xent obj ms) images with
            | Ok (Some (_, cnn)) =>
                aux_top_layer cnn = None
                /\ Forall (fun o => op_aux o = false) (ops cnn)
            | Ok None => True
            | Err _ => False
            end.
Proof.
  eexists. split; [reflexivity|]. split; [reflexivity|].
  intros ms images. rewrite after_same. split; [reflexivity|].
  unfold inference_build. cbn [_model].
  destruct (String.eqb model "inception3").
  - vm_compute. split; [reflexivity|].
    apply forallb_not_aux. vm_compute. reflexivity.
  - destruct (String.eqb model "inception4"); [|exact I].
    vm_compute. split; [reflexivity|].
    apply forallb_not_aux. vm_compute. reflexivity.
Qed.

(** Both constructions do hand the composer a column list in which a
    column opens with a share. *)
Lemma constructions_pass_share_first :
  ~ no_column_opens_with_share
      (modules_of (_construct_inception3_build v3_object images0))
  /\ ~ no_column_opens_with_share
         (modules_of (_construct_inception4_build v4_object images0)).
Proof.
  split; intros H.
  - specialize (H "incept_v3_e" (inception_v3_e_cols "avg")
                  [tup("share"); tup("conv", 384, 3, 1)]).
    assert (share_first [tup("share"); tup("conv", 384, 3, 1)] = false) as Hf;
      [|discriminate Hf].
    apply H.
    + apply list_elem_of_lookup. exists 9%nat. vm_compute. reflexivity.
    + apply list_elem_of_lookup. exists 2%nat. reflexivity.
  - specialize (H "incept_v4_c" inception_v4_c_cols
                  [tup("share"); tup("conv", 256, 3, 1)]).
    assert (share_first [tup("share"); tup("conv", 256, 3, 1)] = false) as Hf;
      [|discriminate Hf].
    apply H.
    + apply list_elem_of_lookup. exists 17%nat. vm_compute. reflexivity.
    + apply list_elem_of_lookup. exists 3%nat. reflexivity.
Qed.

(** Both constructions complete, so no share they meet is out of range,
    and every column list they hand to the composer resolves its
    shares. *)
Lemma constructions_resolve_shares (self : Inception) (images : tensor) :
  (exists last cnn,
     _construct_inception3_build self images = Ok (last, cnn)
     /\ Forall (fun m => shares_resolve [] m.2 = true) (modules cnn))
  /\ (exists last cnn,
        _construct_inception4_build self images = Ok (last, cnn)
        /\ Forall (fun m => shares_resolve [] m.2 = true) (modules cnn)).
Proof.
  destruct self as [aux sz df model shp]. split.
  - destruct aux; eexists _, _; (split; [vm_compute; reflexivity|]);
      apply forallb_shares_resolve; vm_compute; reflexivity.
  - eexists _, _; (split; [vm_compute; reflexivity|]);
      apply forallb_shares_resolve; vm_compute; reflexivity.
Qed.

(** C4 (as the specification states it, refuted): the third column of
    [inception_v3_e] opens with a share. *)
Lemma share_opens_a_column :
  ~ (forall cols col, module_cols cols -> col ∈ cols -> share_first col = false).
Proof.
  intros H.
  specialize (H (inception_v3_e_cols "avg") [tup("share"); tup("conv", 384, 3, 1)]
                (cols_v3_e "avg")).
  assert (share_first [tup("share"); tup("conv", 384, 3, 1)] = false) as Hf;
    [|discriminate Hf].
  apply H. apply list_elem_of_lookup. exists 2%nat. reflexivity.
Qed.

(** C4 (amended): in every column list of the v3 and v4 module
    definitions a share never appears in the first column, and wherever
    it appears, the first operation of a column included, the column
    before has an operation at the same position. *)
Theorem shares_refer_to_previous_column (cols : list (list layer)) :
  module_cols cols -> shares_resolve [] cols = true.
Proof.
  intros [n| |n| |pooltype| | | | | | |k l m n|]; try reflexivity.
  unfold inception_v3_e_cols.
  destruct (String.eqb pooltype "max"); reflexivity.
Qed.

Lemma shares_refer_to_previous_column_witness :
  shares_resolve [] inception_v4_c_cols = true.
Proof.
  apply (shares_refer_to_previous_column inception_v4_c_cols).
  exact cols_v4_c.
Defined.

(** C5: the inception4 construction completes, and the calls it makes
    on the builder are, in order: three stem convolutions, the three
    stem modules, 4 times the "A" module, a reduction, 7 times the "B"
    module, a reduction, 3 times the "C" module, the spatial mean and a
    final dropout. *)
Theorem inception4_sequence (self : Inception) (images : tensor) :
  exists last cnn,
    _construct_inception4_build self images = Ok (last, cnn)
    /\ steps (ops cnn)
       = ([layer_call (Conv 32 3 3 (Some 2) (Some 2) (Some "VALID") None true);
          layer_call (Conv 32 3 3 (Some 1) (Some 1) (Some "VALID") None true);
          layer_call (Conv 64 3 3 None None None None true);
          module_call "incept_v4_sa";
          module_call "incept_v4_sb";
          module_call "incept_v4_sc"]
         ++ replicate 4 (module_call "incept_v4_a")
         ++ [module_call "incept_v4_ra"]
         ++ replicate 7 (module_call "incept_v4_b")
         ++ [module_call "incept_v4_rb"]
         ++ replicate 3 (module_call "incept_v4_c")
         ++ [layer_call SpatialMean; layer_call (Dropout 0.8)])%list.
Proof.
  destruct self as [aux sz df model shp].
  eexists _, _. split; vm_compute; reflexivity.
Qed.

(** *** Shapes and the batch dimension

    Outside a reshape no operation looks at the batch dimension: the
    shapes inferred for one batch size are those inferred for any
    other, with the batch dimension replaced. *)

Lemma as_image_rebatch (l : layout) (s : list Z) (i : image_shape) (b : Z) :
  as_image l s = Ok i -> as_image l (rebatch b s) = Ok (image_rebatch b i).
Proof.
  destruct l; destruct s as [|d0 [|d1 [|d2 [|d3 [|d4 s]]]]]; simpl;
    intros H; try discriminate H; injection H as <-; reflexivity.
Qed.

Lemma of_image_rebatch (l : layout) (i : image_shape) (b : Z) :
  rebatch b (of_image l i) = of_image l (image_rebatch b i).
Proof. destruct l; reflexivity. Qed.

Lemma window_rebatch (l : layout) (k_h k_w d_h d_w : Z) (mode : string)
    (out_channels : option Z) (s r : list Z) (b : Z) :
  window l k_h k_w d_h d_w mode out_channels s = Ok r ->
  window l k_h k_w d_h d_w mode out_channels (rebatch b s) = Ok (rebatch b r).
Proof.
  unfold window. destruct (as_image l s) as [i|e] eqn:E; [|discriminate].
  rewrite (as_image_rebatch l s i b E). cbn [mbind result_bind].
  cbn [image_rebatch height width batch channels].
  destruct (out_size (height i) k_h d_h mode) as [h|e]; [|discriminate].
  destruct (out_size (width i) k_w d_w mode) as [w|e]; [|discriminate].
  intros H. injection H as <-. by rewrite of_image_rebatch.
Qed.

Lemma mapM_as_image_rebatch (l : layout) (ss : list (list Z))
    (imgs : list image_shape) (b : Z) :
  mapM (as_image l) ss = Ok imgs ->
  mapM (as_image l) (map (rebatch b) ss) = Ok (map (image_rebatch b) imgs).
Proof.
  revert imgs. induction ss as [|s ss IH]; intros imgs H.
  - injection H as <-. reflexivity.
  - cbn [mapM] in H. cbn [map mapM].
    destruct (as_image l s) as [i|e] eqn:E; [|discriminate H].
    rewrite (as_image_rebatch l s i b E).
    cbn [mbind result_bind] in H |- *.
    destruct (mapM (as_image l) ss) as [js|e]; [|discriminate H].
    rewrite (IH js eq_refl). cbn [mbind result_bind] in H |- *.
    injection H as <-. reflexivity.
Qed.

Lemma same_extent_rebatch (i : image_shape) (js : list image_shape) (b : Z) :
  forallb (same_extent i) js = true ->
  forallb (same_extent (image_rebatch b i)) (map (image_rebatch b) js) = true.
Proof.
  induction js as [|j js IH]; [reflexivity|]. cbn [forallb map].
  intros H. apply andb_prop in H as [Hj Hjs]. rewrite (IH Hjs), andb_true_r.
  unfold same_extent in *. cbn [image_rebatch batch height width].
  apply andb_prop in Hj as [Hj Hw]. apply andb_prop in Hj as [_ Hh].
  by rewrite Z.eqb_refl, Hh, Hw.
Qed.

Lemma channels_rebatch (js : list image_shape) (b : Z) :
  channels <$> map (image_rebatch b) js = channels <$> js.
Proof. induction js as [|j js IH]; [reflexivity|]. cbn. f_equal. exact IH. Qed.

Lemma filter_no_wildcard (ds : list Z) :
  forallb (fun x => negb (x =? -1)%Z) ds = true ->
  List.filter (fun d => (d =? -1)%Z) ds = []
  /\ List.filter (fun d => negb (d =? -1)%Z) ds = ds
  /\ forall v, map (fun d => if (d =? -1)%Z then v else d) ds = ds.
Proof.
  induction ds as [|d ds IH]; [by repeat split|]. cbn [forallb List.filter map].
  intros H. apply andb_prop in H as [Hd Hds].
  destruct (IH Hds) as (E1 & E2 & E3). apply negb_true_iff in Hd.
  rewrite Hd. cbn [negb]. rewrite E1, E2. repeat split. intros v. by rewrite E3.
Qed.

(** A reshape to [[-1, d, ...]] of as many elements as one example has
    gives one row per example. *)
Lemma reshape_keeps_batch (b : Z) (rest ds : list Z) :
  forallb (fun x => negb (x =? -1)%Z) ds = true ->
  0 < product ds -> product rest = product ds ->
  reshape_shape (-1 :: ds) (b :: rest) = Ok (b :: ds).
Proof.
  intros Hds Hpos Hp. destruct (filter_no_wildcard ds Hds) as (E1 & E2 & E3).
  unfold reshape_shape. cbv zeta.
  change (List.filter (fun d => negb (d =? -1)%Z) (-1 :: ds))
    with (List.filter (fun d => negb (d =? -1)%Z) ds).
  change (List.filter (fun d => (d =? -1)%Z) (-1 :: ds))
    with (-1 :: List.filter (fun d => (d =? -1)%Z) ds).
  change (product (b :: rest)) with (b * product rest).
  rewrite E1, E2, Hp. cbn [length map].
  change (-1 =? -1)%Z with true. cbv iota. rewrite E3.
  apply Z.ltb_lt in Hpos as Hlt. rewrite Hlt.
  rewrite Z.mod_mul by lia. rewrite Z.div_mul by lia. reflexivity.
Qed.

Lemma infer_op_rebatch (l : layout) (o : op) (inputs : list (list Z))
    (r : list Z) (b : Z) :
  keeps_batch o inputs = true ->
  infer_op l o inputs = Ok r ->
  infer_op l o (map (rebatch b) inputs) = Ok (rebatch b r).
Proof.
  intros Hk H.
  destruct o as [n k_h k_w d_h d_w mode stddev bn|k_h k_w d_h d_w mode
                |k_h k_w d_h d_w mode|target|keep| |].
  - destruct inputs as [|s [|s' inputs]]; try discriminate H.
    by apply window_rebatch.
  - destruct inputs as [|s [|s' inputs]]; try discriminate H.
    by apply window_rebatch.
  - destruct inputs as [|s [|s' inputs]]; try discriminate H.
    by apply window_rebatch.
  - destruct target as [|d ds]; [discriminate Hk|].
    destruct inputs as [|[|b0 rest] [|s' inputs]]; try discriminate Hk.
    cbn [keeps_batch] in Hk.
    apply andb_prop in Hk as [Hk Hp]. apply andb_prop in Hk as [Hk Hpos].
    apply andb_prop in Hk as [Hd Hds].
    apply Z.eqb_eq in Hd as ->. apply Z.eqb_eq in Hp. apply Z.ltb_lt in Hpos.
    cbn [infer_op map rebatch] in H |- *.
    rewrite (reshape_keeps_batch b0 rest ds Hds Hpos Hp) in H. injection H as <-.
    by rewrite (reshape_keeps_batch b rest ds Hds Hpos Hp).
  - destruct inputs as [|s [|s' inputs]]; try discriminate H.
    injection H as <-. reflexivity.
  - destruct inputs as [|s [|s' inputs]]; try discriminate H.
    cbn [infer_op map] in H |- *.
    destruct (as_image l s) as [i|e] eqn:E; [|discriminate H].
    rewrite (as_image_rebatch l s i b E). cbn [mbind result_bind] in H |- *.
    injection H as <-. reflexivity.
  - destruct inputs as [|s rest]; [discriminate H|].
    cbn [infer_op map] in H |- *.
    destruct (as_image l s) as [i|e] eqn:E; [|discriminate H].
    rewrite (as_image_rebatch l s i b E). cbn [mbind result_bind] in H |- *.
    destruct (mapM (as_image l) rest) as [js|e] eqn:Ejs; [|discriminate H].
    rewrite (mapM_as_image_rebatch l rest js b Ejs).
    cbn [mbind result_bind] in H |- *.
    destruct (forallb (same_extent i) js) eqn:Es; [|discriminate H].
    rewrite (same_extent_rebatch i js b Es), channels_rebatch.
    injection H as <-. by rewrite of_image_rebatch.
Qed.

Lemma tensor_shape_rebatch (input : list Z) (known : list (list Z)) (t : tensor)
    (s : list Z) (b : Z) :
  tensor_shape input known t = Ok s ->
  tensor_shape (rebatch b input) (map (rebatch b) known) t = Ok (rebatch b s).
Proof.
  destruct t as [name|i]; simpl.
  - intros H. injection H as <-. reflexivity.
  - rewrite list_lookup_fmap. destruct (known !! i) as [s'|]; [|discriminate].
    intros H. injection H as <-. reflexivity.
Qed.

Lemma mapM_tensor_shape_rebatch (input : list Z) (known : list (list Z))
    (ts : list tensor) (ss : list (list Z)) (b : Z) :
  mapM (tensor_shape input known) ts = Ok ss ->
  mapM (tensor_shape (rebatch b input) (map (rebatch b) known)) ts
  = Ok (map (rebatch b) ss).
Proof.
  revert ss. induction ts as [|t ts IH]; intros ss H.
  - injection H as <-. reflexivity.
  - cbn [mapM] in H |- *.
    destruct (tensor_shape input known t) as [s|e] eqn:E; [|discriminate H].
    rewrite (tensor_shape_rebatch input known t s b E).
    cbn [mbind result_bind] in H |- *.
    destruct (mapM (tensor_shape input known) ts) as [ss'|e]; [|discriminate H].
    rewrite (IH ss' eq_refl). cbn [mbind result_bind] in H |- *.
    injection H as <-. reflexivity.
Qed.

Lemma infer_shapes_rebatch (l : layout) (input : list Z) (b : Z)
    (ops : list named_op) :
  forall known res,
    batch_stable l input known ops = true ->
    infer_shapes l input known ops = Ok res ->
    infer_shapes l (rebatch b input) (map (rebatch b) known) ops
    = Ok (map (rebatch b) res).
Proof.
  induction ops as [|o ops IH]; intros known res Hst H.
  - injection H as <-. reflexivity.
  - cbn [infer_shapes batch_stable] in H, Hst |- *.
    destruct (mapM (tensor_shape input known) (op_inputs o)) as [ss|e] eqn:E;
      [|discriminate H].
    rewrite (mapM_tensor_shape_rebatch input known _ ss b E).
    cbn [mbind result_bind] in H |- *.
    apply andb_prop in Hst as [Ho Hst].
    destruct (infer_op l (op_kind o) ss) as [s|e] eqn:Es; [|discriminate H].
    rewrite (infer_op_rebatch l (op_kind o) ss s b Ho Es).
    cbn [mbind result_bind] in H |- *.
    specialize (IH (known ++ [s])%list res Hst H).
    by rewrite map_app in IH.
Qed.

(** In a graph whose operations keep the batch dimension, the shape of
    every tensor follows the batch dimension of the input. *)
Lemma shape_of_rebatch (cnn : builder) (input : list Z) (t : tensor)
    (s : list Z) (b : Z) :
  0 <= b ->
  keeps_batch_throughout cnn input = true ->
  shape_of cnn input t = Ok s ->
  shape_of cnn (rebatch b input) t = Ok (rebatch b s).
Proof.
  unfold shape_of, keeps_batch_throughout. intros Hb.
  destruct (forallb (Z.leb 0) input) eqn:Hin; [|discriminate].
  assert (forallb (Z.leb 0) (rebatch b input) = true) as ->.
  { destruct input as [|b0 rest]; [reflexivity|]. cbn [rebatch forallb] in Hin |- *.
    apply andb_prop in Hin as [_ ->]. rewrite andb_true_r. by apply Z.leb_le. }
  destruct (layout_of (data_format cnn)) as [l|e]; [|discriminate].
  intros Hst. cbn [mbind result_bind].
  destruct (infer_shapes l input [] (ops cnn)) as [shapes|e] eqn:E; [|discriminate].
  pose proof (infer_shapes_rebatch l input b (ops cnn) [] shapes Hst E) as E'.
  cbn [map] in E'. rewrite E'. cbn [mbind result_bind].
  apply tensor_shape_rebatch.
Qed.

(** C6 (as the specification states it, refuted): on the input shape
    [[32, 299, 299, 3]] the feature vector of Inception v4 has shape
    [[32, 1536]]: 1536 features, not 2048. *)
Lemma inception4_features_not_2048 :
  exists last cnn,
    __init__ 299 "NHWC" 32 "inception4" = Ok v4_object
    /\ _construct_inception4_build v4_object images0 = Ok (last, cnn)
    /\ inference v4_object images0 = Ok (Some last)
    /\ channels_of cnn last = Some 1536
    /\ channels_of cnn last <> Some 2048
    /\ shape_of cnn (_image_shape v4_object) last = Ok [32; 1536]
    /\ shape_of cnn (_image_shape v4_object) last <> Ok [32; 2048].
Proof.
  eexists _, _. split; [reflexivity|]. split; [vm_compute; reflexivity|].
  split; [vm_compute; reflexivity|]. split; [vm_compute; reflexivity|].
  split; [vm_compute; discriminate|]. split; [vm_compute; reflexivity|].
  vm_compute. discriminate.
Qed.

(** C6 (amended): for Inception v4 with the fixed input shape
    [[batch, 299, 299, 3]], the final output of [inference] is a
    fixed-length feature vector of length 1536, a tensor of shape
    [[batch, 1536]], the same length for every batch size: the last "C"
    module leaves feature maps of shape [[batch, 8, 8, 1536]] and the
    spatial mean makes one vector of each.  And [dropout] with keep
    probability 1 leaves the builder and its top tensor as they are. *)
Theorem inception4_feature_length (batch_size : Z) :
  0 <= batch_size ->
  exists obj last cnn maps,
    __init__ 299 "NHWC" batch_size "inception4" = Ok obj
    /\ inference obj images0 = Ok (Some last)
    /\ _construct_inception4_build obj images0 = Ok (last, cnn)
    /\ _image_shape obj = [batch_size; 299; 299; 3]
    /\ shape_of cnn (_image_shape obj) last = Ok [batch_size; 1536]
    /\ (op_kind <$> ops cnn !! 186%nat = Some SpatialMean
        /\ op_inputs <$> ops cnn !! 186%nat = Some [maps]
        /\ shape_of cnn (_image_shape obj) maps = Ok [batch_size; 8; 8; 1536])
    /\ forall cnn0 : builder, dropout 1 cnn0 = Ok (top_layer cnn0, cnn0).
Proof.
  intros Hb. eexists _, _, _, _. split; [reflexivity|].
  split; [vm_compute; reflexivity|].
  split; [vm_compute; reflexivity|].
  split; [reflexivity|].
  split; [|split; [split; [vm_compute; reflexivity|split; [vm_compute; reflexivity|]]|]].
  - cbn [_image_shape String.eqb Ascii.eqb Bool.eqb].
    apply (shape_of_rebatch _ [1; 299; 299; 3] _ [1; 1536] batch_size);
      [exact Hb|vm_compute; reflexivity..].
  - cbn [_image_shape String.eqb Ascii.eqb Bool.eqb].
    apply (shape_of_rebatch _ [1; 299; 299; 3] _ [1; 8; 8; 1536] batch_size);
      [exact Hb|vm_compute; reflexivity..].
  - intros cnn0. unfold dropout, mbind, build_bind, get.
    change (Qeq_bool 1 1) with true. rewrite orb_true_r. reflexivity.
Qed.

Lemma inception4_feature_length_witness :
  0 <= 32
  /\ exists obj last cnn maps,
       __init__ 299 "NHWC" 32 "inception4" = Ok obj
       /\ inference obj images0 = Ok (Some last)
       /\ _construct_inception4_build obj images0 = Ok (last, cnn)
       /\ _image_shape obj = [32; 299; 299; 3]
       /\ shape_of cnn (_image_shape obj) last = Ok [32; 1536]
       /\ (op_kind <$> ops cnn !! 186%nat = Some SpatialMean
           /\ op_inputs <$> ops cnn !! 186%nat = Some [maps]
           /\ shape_of cnn (_image_shape obj) maps = Ok [32; 8; 8; 1536])
       /\ forall cnn0 : builder, dropout 1 cnn0 = Ok (top_layer cnn0, cnn0).
Proof.
  split; [lia|]. apply (inception4_feature_length 32). lia.
Defined.

(** *** The loss *)

Lemma Qsum_unit_weight (l : list Q) :
  (Qsum (map (fun x => x * 1) l) == Qsum l)%Q.
Proof.
  induction l as [|x l IH]; simpl; [reflexivity|].
  rewrite IH. ring.
Qed.

Lemma reduce_mean_scalar (x : Q) : (reduce_mean [x] == x)%Q.
Proof. unfold reduce_mean. simpl. field. Qed.

Lemma batch_size_nonzero (n : nat) :
  n <> 0%nat -> Qeq_bool (inject_Z (Z.of_nat n)) 0 = false.
Proof.
  intros Hn. destruct (Qeq_bool (inject_Z (Z.of_nat n)) 0) eqn:E; [|reflexivity].
  apply Qeq_bool_iff in E. unfold Qeq in E. simpl in E. lia.
Qed.

Lemma labels_in_range_Forall2 (logits : list (list Q)) (labels : list Z) :
  Forall2 (fun row label => 0 <= label < Z.of_nat (length row)) logits labels ->
  labels_in_range logits labels = true.
Proof.
  unfold labels_in_range.
  induction 1 as [|row label logits labels [Hlo Hhi] _ IH]; [reflexivity|].
  cbn [zip zip_with forallb fst snd]. rewrite IH, andb_true_r.
  apply andb_true_intro. split; [by apply Z.leb_le|by apply Z.ltb_lt].
Qed.

(** C7 (as the specification states it, refuted): on logits of shape
    [[2, 2]] and labels of shape [[2]], the second label being 5, which
    names no class, [loss] returns no scalar: it fails. *)
Lemma loss_rejects_unknown_label :
  length [0; 5] = length [[0.5; 0.25]; [0.125; 1]]%Q
  /\ loss (fun row label => nth (Z.to_nat label) row 0%Q) v4_object
          [[0.5; 0.25]; [0.125; 1]]%Q [0; 5]
     = Err (PyError "InvalidArgumentError").
Proof. split; reflexivity. Qed.

(** C7 (amended): on logits of shape [[batch, num_classes]] and labels of
    shape [[batch]], every label lying in [[0, num_classes)], [loss]
    returns a scalar: the arithmetic mean over the batch of the
    per-example sparse cross-entropies.  (On the empty batch both are 0:
    the engine guards its division, and so does the division of [Q].) *)
Theorem loss_is_batch_mean (xent : list Q -> Z -> Q) (self : Inception)
    (logits : list (list Q)) (labels : list Z) :
  length labels = length logits ->
  Forall2 (fun row label => 0 <= label < Z.of_nat (length row)) logits labels ->
  exists r,
    loss xent self logits labels = Ok r
    /\ (r == mean_cross_entropy xent logits labels)%Q.
Proof.
  intros Hlen Hrange.
  pose proof (labels_in_range_Forall2 logits labels Hrange) as Hin.
  destruct labels as [|label labels].
  { destruct logits; [|discriminate].
    eexists. split; [reflexivity|]. vm_compute. reflexivity. }
  assert (length (zip_with xent logits (label :: labels))
          = length (label :: labels)) as Hl.
  { rewrite length_zip_with. lia. }
  assert (length (label :: labels) <> 0%nat) as Hn by discriminate.
  unfold loss, sparse_softmax_cross_entropy.
  destruct (decide (length (label :: labels) = length logits)) as [_|Hd];
    [|contradiction].
  rewrite Hin. cbn [mbind result_bind].
  change (Qeq_bool 1 0) with false. cbv iota.
  rewrite Hl, (batch_size_nonzero _ Hn).
  eexists. split; [reflexivity|].
  rewrite reduce_mean_scalar, Qsum_unit_weight.
  unfold mean_cross_entropy. reflexivity.
Qed.

Lemma loss_is_batch_mean_witness :
  exists r,
    loss (fun row label => nth (Z.to_nat label) row 0%Q) v4_object
         [[0.5; 0.25]; [0.125; 1]]%Q [0; 1]
    = Ok r
    /\ (r == mean_cross_entropy (fun row label => nth (Z.to_nat label) row 0%Q)
              [[0.5; 0.25]; [0.125; 1]]%Q [0; 1]%Z)%Q.
Proof.
  apply (loss_is_batch_mean (fun row label => nth (Z.to_nat label) row 0%Q)
           v4_object [[0.5; 0.25]; [0.125; 1]]%Q [0; 1]).
  - reflexivity.
  - repeat constructor; vm_compute; congruence.
Defined.

(** C8: when the batch dimensions of the logits and of the labels
    disagree, [loss] fails with [ShapeMismatch]. *)
Theorem loss_shape_mismatch (xent : list Q -> Z -> Q) (self : Inception)
    (logits : list (list Q)) (labels : list Z) :
  length logits <> length labels ->
  loss xent self logits labels = Err ShapeMismatch.
Proof.
  intros Hne. unfold loss, sparse_softmax_cross_entropy.
  destruct (decide (length labels = length logits)) as [Heq|_];
    [congruence|reflexivity].
Qed.

Lemma loss_shape_mismatch_witness :
  loss (fun row label => nth (Z.to_nat label) row 0%Q) v4_object
       (replicate 8 [0.5; 0.25]%Q) (replicate 4 0)
  = Err ShapeMismatch.
Proof.
  apply (loss_shape_mismatch (fun row label => nth (Z.to_nat label) row 0%Q)
           v4_object (replicate 8 [0.5; 0.25]%Q) (replicate 4 0)).
  vm_compute. lia.
Defined.

End InceptionFacts.

(** * Further properties of the record decoder and of the script *)

Module RecordDataMore.
Import RecordData RecordDataFacts.

(** Every key of a record parses exactly when the record is
    well-formed. *)
Lemma wellformed_all_keys (ex : gmap string Feature) :
  wellformed ex <->
  map_Forall (fun (_ : string) (r : result parsed) => is_ok r = true)
    (map_imap (fun k spec => Some (parse_feature spec (ex !! k))) feature_map).
Proof.
  split.
  - intros Hwf k r Hr. rewrite map_lookup_imap in Hr.
    destruct (feature_map !! k) as [spec|] eqn:E; simpl in Hr; [|discriminate].
    injection Hr as <-. destruct (ex !! k) as [f|] eqn:Ef.
    + by apply (Hwf k).
    + by apply (absent_key_parses k).
  - intros Hall k f spec Hf Hs.
    specialize (Hall k (parse_feature spec (Some f))). apply Hall.
    by rewrite map_lookup_imap, Hs, Hf.
Qed.

Lemma decode_not_wellformed (ex : gmap string Feature) :
  ~ wellformed ex -> parse_example_proto ex = Err MalformedRecord.
Proof.
  intros Hn. unfold parse_example_proto, parse_example_proto_body,
    parse_single_example.
  destruct (decide (map_Forall (fun _ r => is_ok r = true)
              (map_imap (fun k spec => Some (parse_feature spec (ex !! k)))
                 feature_map))) as [Hall|_]; [|reflexivity].
  exfalso. apply Hn. by apply wellformed_all_keys.
Qed.

Lemma decode_ok (ex : gmap string Feature) :
  wellformed ex -> is_ok (parse_example_proto ex) = true.
Proof.
  intros Hwf. unfold parse_example_proto.
  by rewrite (decode_wellformed ex Hwf).
Qed.

(** Whether a record is well-formed can be decided. *)
Lemma wellformed_dec (ex : gmap string Feature) : wellformed ex \/ ~ wellformed ex.
Proof.
  destruct (decide (map_Forall
              (fun (_ : string) (r : result parsed) => is_ok r = true)
              (map_imap (fun k spec => Some (parse_feature spec (ex !! k)))
                 feature_map))) as [H|H].
  - left. by apply wellformed_all_keys.
  - right. intros Hwf. apply H. by apply wellformed_all_keys.
Qed.

(** The schema, key by key. *)
Lemma feature_map_spec (k : string) :
  feature_map !! k
  = if bool_decide (k ∈ ["image/encoded"; "image/class/text"]) then
      Some (FixedLenFeature [] DT_STRING (Some (SStr "")))
    else if bool_decide (k ∈ ["image/class/label"; "image/height"; "image/width"])
    then Some (FixedLenFeature [1%nat] DT_INT64 (Some (SInt (-1))))
    else if bool_decide (k ∈ sparse_keys) then Some (VarLenFeature DT_FLOAT)
    else None.
Proof.
  destruct (decide (k = "image/encoded")) as [->|N1]; [vm_compute; reflexivity|].
  destruct (decide (k = "image/class/text")) as [->|N2]; [vm_compute; reflexivity|].
  destruct (decide (k = "image/class/label")) as [->|N3]; [vm_compute; reflexivity|].
  destruct (decide (k = "image/height")) as [->|N4]; [vm_compute; reflexivity|].
  destruct (decide (k = "image/width")) as [->|N5]; [vm_compute; reflexivity|].
  destruct (decide (k = "image/object/bbox/xmin")) as [->|N6];
    [vm_compute; reflexivity|].
  destruct (decide (k = "image/object/bbox/ymin")) as [->|N7];
    [vm_compute; reflexivity|].
  destruct (decide (k = "image/object/bbox/xmax")) as [->|N8];
    [vm_compute; reflexivity|].
  destruct (decide (k = "image/object/bbox/ymax")) as [->|N9];
    [vm_compute; reflexivity|].
  rewrite !bool_decide_eq_false_2
    by (unfold sparse_keys; rewrite !elem_of_cons, elem_of_nil; tauto).
  unfold feature_map, sparse_keys. cbn [map list_to_map foldr fst snd].
  apply lookup_union_None. split.
  - by rewrite !lookup_insert_ne, lookup_empty.
  - rewrite !lookup_insert_ne by done. by apply lookup_singleton_ne.
Qed.

(** A field parses exactly when it is as the schema wants it. *)
Lemma field_parses_iff_conforms (k : string) (f : Feature) (spec : feature_spec) :
  feature_map !! k = Some spec ->
  is_ok (parse_feature spec (Some f)) = field_conforms k f.
Proof.
  rewrite feature_map_spec. unfold field_conforms.
  repeat case_bool_decide; intros Hs; try discriminate Hs; injection Hs as <-.
  - destruct f as [[|x [|y l]]|l|l]; reflexivity.
  - destruct f as [l|l|[|x [|y l]]]; reflexivity.
  - destruct f as [l|l|l]; reflexivity.
Qed.

Lemma unnamed_field_conforms (k : string) (f : Feature) :
  feature_map !! k = None -> field_conforms k f = true.
Proof.
  rewrite feature_map_spec. unfold field_conforms.
  repeat case_bool_decide; intros Hs; try discriminate Hs. reflexivity.
Qed.

Lemma wellformed_iff_conforming (ex : gmap string Feature) :
  wellformed ex <-> conforming ex.
Proof.
  split.
  - intros Hwf k f Hf. destruct (feature_map !! k) as [spec|] eqn:Hs.
    + rewrite <- (field_parses_iff_conforms k f spec Hs). by apply (Hwf k).
    + by apply unnamed_field_conforms.
  - intros Hc k f spec Hf Hs.
    rewrite (field_parses_iff_conforms k f spec Hs). by apply Hc.
Qed.

(** X1: the decoder returns exactly on the records that hold, wherever
    they hold anything, one string under [image/encoded] and under
    [image/class/text], one integer under [image/class/label],
    [image/height] and [image/width], and a list of floats under each of
    the four coordinate keys; on every other record it fails with
    [MalformedRecord], and it fails in no other way. *)
Theorem decode_succeeds_iff_conforming (ex : gmap string Feature) :
  (conforming ex <-> is_ok (parse_example_proto ex) = true)
  /\ (is_ok (parse_example_proto ex) = false <->
      parse_example_proto ex = Err MalformedRecord).
Proof.
  destruct (wellformed_dec ex) as [Hwf|Hn].
  - pose proof (decode_ok ex Hwf) as Hok.
    apply wellformed_iff_conforming in Hwf.
    destruct (parse_example_proto ex) as [r|e]; [|discriminate Hok].
    split; split; intros H; try assumption; try reflexivity; discriminate H.
  - rewrite (decode_not_wellformed ex Hn).
    split; split; intros H.
    + apply wellformed_iff_conforming in H. destruct (Hn H).
    + discriminate H.
    + reflexivity.
    + reflexivity.
Qed.

(** X2: a field the schema does not name (the colorspace, the file name,
    the synset, ...) has no part in the decoding: with it or without it,
    the local [bbox] and the returned tuple are the same. *)
Theorem unnamed_field_is_ignored (ex : gmap string Feature) (k : string)
    (f : Feature) :
  feature_map !! k = None ->
  parse_example_proto_body (<[k := f]> ex) = parse_example_proto_body ex
  /\ parse_example_proto (<[k := f]> ex) = parse_example_proto ex
  /\ parse_example_proto (delete k ex) = parse_example_proto ex.
Proof.
  intros Hk.
  assert (parse_single_example (<[k := f]> ex) feature_map
          = parse_single_example ex feature_map) as Hi.
  { apply parse_single_example_ext. intros k' spec Hs.
    rewrite lookup_insert_ne; [reflexivity|]. intros ->. congruence. }
  assert (parse_single_example (delete k ex) feature_map
          = parse_single_example ex feature_map) as Hd.
  { apply parse_single_example_ext. intros k' spec Hs.
    rewrite lookup_delete_ne; [reflexivity|]. intros ->. congruence. }
  split; [|split].
  - unfold parse_example_proto_body. by rewrite Hi.
  - by apply parse_example_proto_ext.
  - by apply parse_example_proto_ext.
Qed.

Lemma unnamed_field_is_ignored_witness :
  parse_example_proto_body
    (<["image/filename" := bytes_list ["ILSVRC2012_val_00041207.JPEG"]]> example_boxes)
  = parse_example_proto_body example_boxes
  /\ parse_example_proto
       (<["image/filename" := bytes_list ["ILSVRC2012_val_00041207.JPEG"]]> example_boxes)
     = parse_example_proto example_boxes
  /\ parse_example_proto (delete "image/filename" example_boxes)
     = parse_example_proto example_boxes.
Proof.
  apply (unnamed_field_is_ignored example_boxes "image/filename"
           (bytes_list ["ILSVRC2012_val_00041207.JPEG"])).
  vm_compute. reflexivity.
Defined.

(** The four coordinate keys are variable-length float features. *)
Lemma sparse_key_spec (k : string) :
  k ∈ sparse_keys -> feature_map !! k = Some (VarLenFeature DT_FLOAT).
Proof.
  unfold sparse_keys. intros H.
  repeat (apply elem_of_cons in H as [->|H]; [vm_compute; reflexivity|]).
  by apply elem_of_nil in H.
Qed.

Lemma sparse_key_not_returned (k : string) :
  k ∈ sparse_keys ->
  k <> "image/encoded" /\ k <> "image/class/label" /\ k <> "image/class/text"
  /\ k <> "image/height" /\ k <> "image/width".
Proof.
  unfold sparse_keys. intros H.
  repeat (apply elem_of_cons in H as [->|H]; [repeat split; discriminate|]).
  by apply elem_of_nil in H.
Qed.

Lemma wellformed_insert_floats (ex : gmap string Feature) (k : string) (l : list Q) :
  k ∈ sparse_keys -> wellformed ex -> wellformed (<[k := float_list l]> ex).
Proof.
  intros Hk Hwf k' f spec Hf Hs.
  destruct (decide (k' = k)) as [->|Hne].
  - rewrite lookup_insert_eq in Hf. injection Hf as <-.
    rewrite (sparse_key_spec k Hk) in Hs. injection Hs as <-. reflexivity.
  - rewrite lookup_insert_ne in Hf by congruence. by apply (Hwf k').
Qed.

(** X3: the returned tuple never depends on the bounding boxes: on a
    well-formed record, replacing the list under any of the four
    coordinate keys by any other list of floats leaves it as it was. *)
Theorem returned_ignores_boxes (ex : gmap string Feature) (k : string) (l : list Q) :
  k ∈ sparse_keys ->
  wellformed ex ->
  parse_example_proto (<[k := float_list l]> ex) = parse_example_proto ex.
Proof.
  intros Hk Hwf.
  pose proof (wellformed_insert_floats ex k l Hk Hwf) as Hwf'.
  destruct (sparse_key_not_returned k Hk) as (N1 & N2 & N3 & N4 & N5).
  unfold parse_example_proto.
  rewrite (decode_wellformed _ Hwf), (decode_wellformed _ Hwf').
  cbn [fmap result_fmap snd].
  by rewrite !lookup_insert_ne.
Qed.

Lemma returned_ignores_boxes_witness :
  parse_example_proto (<["image/object/bbox/ymax" := float_list []]> example_boxes)
  = parse_example_proto example_boxes.
Proof.
  apply (returned_ignores_boxes example_boxes "image/object/bbox/ymax" []).
  - unfold sparse_keys. set_solver.
  - apply wellformed_all_keys. apply (bool_decide_unpack _). vm_compute. exact I.
Defined.

Lemma boxes_length (ymin xmin ymax xmax : list Q) :
  length xmin = length ymin -> length ymax = length ymin ->
  length xmax = length ymin ->
  length (boxes ymin xmin ymax xmax) = length ymin.
Proof.
  revert xmin ymax xmax.
  induction ymin as [|y ymin IH]; intros [|x xmin] [|y' ymax] [|x' xmax];
    simpl; intros H1 H2 H3; try discriminate; try reflexivity.
  f_equal. apply IH; congruence.
Qed.

Lemma boxes_rows_of_four (ymin xmin ymax xmax : list Q) :
  Forall (fun row => length row = 4%nat) (boxes ymin xmin ymax xmax).
Proof.
  revert xmin ymax xmax.
  induction ymin as [|y ymin IH]; intros [|x xmin] [|y' ymax] [|x' xmax];
    simpl; try constructor; [reflexivity|apply IH].
Qed.

(** X4: on every well-formed record whose four coordinate lists have one
    length [n], the local [bbox] is a tensor of shape [[1, n, 4]], and
    its row [i] is [(ymin[i], xmin[i], ymax[i], xmax[i])]. *)
Theorem bbox_rows_are_boxes (ex : gmap string Feature)
    (ymin xmin ymax xmax : list Q) :
  wellformed ex ->
  ex !! "image/object/bbox/ymin" = Some (float_list ymin) ->
  ex !! "image/object/bbox/xmin" = Some (float_list xmin) ->
  ex !! "image/object/bbox/ymax" = Some (float_list ymax) ->
  ex !! "image/object/bbox/xmax" = Some (float_list xmax) ->
  length xmin = length ymin -> length ymax = length ymin ->
  length xmax = length ymin ->
  exists rows,
    parse_example_proto_bbox ex = Ok [rows]
    /\ length rows = length ymin
    /\ Forall (fun row => length row = 4%nat) rows
    /\ forall i y x y' x',
         ymin !! i = Some y -> xmin !! i = Some x ->
         ymax !! i = Some y' -> xmax !! i = Some x' ->
         rows !! i = Some [y; x; y'; x'].
Proof.
  intros Hwf Ey Ex Ey' Ex' H1 H2 H3.
  exists (boxes ymin xmin ymax xmax). split; [|split; [|split]].
  - pose proof (bbox_of_wellformed ex Hwf) as Hb. cbv zeta in Hb.
    rewrite Ey, Ex, Ey', Ex' in Hb. simpl in Hb. by apply Hb.
  - by apply boxes_length.
  - apply boxes_rows_of_four.
  - intros i y x y' x'. apply boxes_lookup.
Qed.

Lemma example_boxes_wellformed : wellformed example_boxes.
Proof.
  apply wellformed_all_keys. apply (bool_decide_unpack _). vm_compute. exact I.
Defined.

Lemma bbox_rows_are_boxes_witness :
  exists rows,
    parse_example_proto_bbox example_boxes = Ok [rows]
    /\ length rows = length [0.2; 0.4]%Q
    /\ Forall (fun row => length row = 4%nat) rows
    /\ forall i y x y' x',
         [0.2; 0.4]%Q !! i = Some y -> [0.1; 0.3]%Q !! i = Some x ->
         [0.6; 0.7]%Q !! i = Some y' -> [0.9; 0.5]%Q !! i = Some x' ->
         rows !! i = Some [y; x; y'; x'].
Proof.
  apply (bbox_rows_are_boxes example_boxes
           [0.2; 0.4]%Q [0.1; 0.3]%Q [0.6; 0.7]%Q [0.9; 0.5]%Q).
  - exact example_boxes_wellformed.
  - vm_compute. reflexivity.
  - vm_compute. reflexivity.
  - vm_compute. reflexivity.
  - vm_compute. reflexivity.
  - reflexivity.
  - reflexivity.
  - reflexivity.
Defined.

Lemma wrap32_range (z : Z) : - 2 ^ 31 <= wrap32 z < 2 ^ 31.
Proof.
  unfold wrap32.
  pose proof (Z.mod_pos_bound (z + 2 ^ 31) (2 ^ 32) ltac:(lia)). lia.
Qed.

Lemma wrap32_congruent (z : Z) : (wrap32 z - z) mod 2 ^ 32 = 0.
Proof.
  unfold wrap32.
  replace ((z + 2 ^ 31) mod 2 ^ 32 - 2 ^ 31 - z)
    with (- (2 ^ 32 * ((z + 2 ^ 31) / 2 ^ 32))).
  - rewrite Z.mul_comm, <- Z.mul_opp_l. apply Z.mod_mul. lia.
  - pose proof (Z.div_mod (z + 2 ^ 31) (2 ^ 32) ltac:(lia)). lia.
Qed.

Lemma wrap32_small (z : Z) : - 2 ^ 31 <= z < 2 ^ 31 -> wrap32 z = z.
Proof.
  intros H. unfold wrap32. rewrite Z.mod_small; lia.
Qed.

(** X5: the label is narrowed from 64 to 32 bits and the height and the
    width are not.  On a well-formed record holding the label [z], the
    height [h] and the width [w], the returned label is the 32-bit
    integer congruent to [z] modulo 2^32, which is [z] itself when [z]
    fits 32 bits; the returned height and width are [h] and [w] as
    stored. *)
Theorem label_is_narrowed (ex : gmap string Feature) (z h w : Z) :
  wellformed ex ->
  ex !! "image/class/label" = Some (int64_list [z]) ->
  ex !! "image/height" = Some (int64_list [h]) ->
  ex !! "image/width" = Some (int64_list [w]) ->
  exists encoded text z',
    parse_example_proto ex
    = Ok (encoded, mkTensor DT_INT32 [1%nat] (Ints [z']), text,
          mkTensor DT_INT64 [1%nat] (Ints [h]),
          mkTensor DT_INT64 [1%nat] (Ints [w]))
    /\ - 2 ^ 31 <= z' < 2 ^ 31
    /\ (z' - z) mod 2 ^ 32 = 0
    /\ (- 2 ^ 31 <= z < 2 ^ 31 -> z' = z).
Proof.
  intros Hwf El Eh Ew.
  exists (mkTensor DT_STRING [] (Strings (strings_of (ex !! "image/encoded")))),
         (mkTensor DT_STRING [] (Strings (strings_of (ex !! "image/class/text")))),
         (wrap32 z).
  split; [|split; [|split]].
  - unfold parse_example_proto. rewrite (decode_wellformed ex Hwf).
    rewrite El, Eh, Ew. reflexivity.
  - apply wrap32_range.
  - apply wrap32_congruent.
  - apply wrap32_small.
Qed.

Lemma label_is_narrowed_witness :
  exists encoded text z',
    parse_example_proto example_boxes
    = Ok (encoded, mkTensor DT_INT32 [1%nat] (Ints [z']), text,
          mkTensor DT_INT64 [1%nat] (Ints [462]),
          mkTensor DT_INT64 [1%nat] (Ints [581]))
    /\ - 2 ^ 31 <= z' < 2 ^ 31
    /\ (z' - 615) mod 2 ^ 32 = 0
    /\ (- 2 ^ 31 <= 615 < 2 ^ 31 -> z' = 615).
Proof.
  apply (label_is_narrowed example_boxes 615 462 581).
  - exact example_boxes_wellformed.
  - vm_compute. reflexivity.
  - vm_compute. reflexivity.
  - vm_compute. reflexivity.
Defined.

(** *** The script *)

Lemma count_loop_all_decoded (records : list (gmap string Feature)) (count : Z) :
  Forall wellformed records ->
  count_loop (dataset_map parse_example_proto records) count
  = Ok [print_int (count + Z.of_nat (length records)); print_str "Done"].
Proof.
  intros Hall. revert count.
  induction Hall as [|ex records Hwf _ IH]; intros count; simpl.
  - by rewrite Z.add_0_r.
  - pose proof (decode_ok ex Hwf) as Hok.
    destruct (parse_example_proto ex) as [r|e]; [|discriminate Hok].
    rewrite IH. do 3 f_equal. lia.
Qed.

Lemma count_loop_malformed (good rest : list (gmap string Feature))
    (bad : gmap string Feature) (count : Z) :
  Forall wellformed good -> ~ wellformed bad ->
  count_loop (dataset_map parse_example_proto (good ++ bad :: rest)) count
  = Err MalformedRecord.
Proof.
  intros Hall Hbad. revert count.
  induction Hall as [|ex records Hwf _ IH]; intros count; simpl.
  - by rewrite (decode_not_wellformed bad Hbad).
  - pose proof (decode_ok ex Hwf) as Hok.
    destruct (parse_example_proto ex) as [r|e]; [|discriminate Hok].
    apply IH.
Qed.

(** X6: on a file all of whose records are well-formed, the script
    prints the number of records and then "Done"; a record counts
    whether or not it holds an image, a label or any other field. *)
Theorem script_counts_records (records : list (gmap string Feature)) :
  Forall wellformed records ->
  script records = Ok [print_int (Z.of_nat (length records)); print_str "Done"].
Proof.
  intros Hall. unfold script.
  by rewrite (count_loop_all_decoded records 0 Hall).
Qed.

Lemma script_counts_records_witness :
  script [example_boxes; ∅; example_boxes]
  = Ok [print_int (Z.of_nat (length [example_boxes; (∅ : gmap string Feature);
                                      example_boxes]));
        print_str "Done"].
Proof.
  apply (script_counts_records [example_boxes; ∅; example_boxes]).
  repeat constructor; try exact example_boxes_wellformed.
  intros k f spec Hk. vm_compute in Hk. discriminate Hk.
Defined.

(** X7: the first record that is not well-formed ends the script with
    [MalformedRecord]: nothing is printed, neither a count nor "Done",
    however many records came before it or follow it. *)
Theorem script_dies_on_malformed (good rest : list (gmap string Feature))
    (bad : gmap string Feature) :
  Forall wellformed good ->
  ~ wellformed bad ->
  script (good ++ bad :: rest) = Err MalformedRecord.
Proof.
  intros Hall Hbad. unfold script. by apply count_loop_malformed.
Qed.

Lemma script_dies_on_malformed_witness :
  script ([example_boxes]
          ++ {[ "image/class/label" := int64_list [1; 2] ]} :: [example_boxes])
  = Err MalformedRecord.
Proof.
  apply (script_dies_on_malformed [example_boxes] [example_boxes]
           {[ "image/class/label" := int64_list [1; 2] ]}).
  - repeat constructor. exact example_boxes_wellformed.
  - intros Hwf.
    specialize (Hwf "image/class/label" (int64_list [1; 2])
                  (FixedLenFeature [1%nat] DT_INT64 (Some (SInt (-1))))).
    assert (false = true) as Hf; [|discriminate Hf].
    apply Hwf; vm_compute; reflexivity.
Defined.

End RecordDataMore.

(** * Further properties of the network assembler *)

Module InceptionMore.
Import ConvNetBuilder Inception InceptionFacts.

(** *** The composer on any column list *)

Lemma same_frame_refl cnn : same_frame cnn cnn.
Proof. repeat split. Qed.

Lemma same_frame_trans a b c : same_frame a b -> same_frame b c -> same_frame a c.
Proof. unfold same_frame. intros H1 H2. destruct_and!. repeat split; congruence. Qed.

Lemma grows_refl cnn : grows cnn cnn 0.
Proof. exists []. by rewrite app_nil_r. Qed.

Lemma grows_trans a b c n m : grows a b n -> grows b c m -> grows a c (n + m).
Proof.
  intros (l1 & E1 & L1) (l2 & E2 & L2). exists (l1 ++ l2)%list.
  rewrite E2, E1, <- app_assoc, length_app. auto.
Qed.

Lemma bind_inv {A B} (m : build A) (f : A -> build B) cnn r :
  (m ≫= f) cnn = Ok r -> exists a c1, m cnn = Ok (a, c1) /\ f a c1 = Ok r.
Proof.
  unfold mbind, build_bind. destruct (m cnn) as [[a c1]|e]; [eauto|discriminate].
Qed.

Lemma modify_top_frame t size cnn : same_frame cnn (set_top t size cnn) /\ grows cnn (set_top t size cnn) 0.
Proof.
  split; [repeat split|]. exists []. split; [cbn; by rewrite app_nil_r|reflexivity].
Qed.

Lemma add_op_inv kind inputs channels cnn t cnn' :
  add_op kind inputs channels cnn = Ok (t, cnn') ->
  t = Node (length (ops cnn))
  /\ top_layer cnn' = t /\ top_size cnn' = channels
  /\ ops cnn' = (ops cnn ++ [mk_op (scope cnn) (bool_decide (is_Some (saved_primary cnn)))
                              kind inputs channels])%list
  /\ same_frame cnn cnn'.
Proof. unfold add_op. intros [= <- <-]. repeat split. Qed.

Lemma add_op_grows kind inputs channels cnn t cnn' :
  add_op kind inputs channels cnn = Ok (t, cnn') ->
  same_frame cnn cnn' /\ grows cnn cnn' 1.
Proof.
  intros H. apply add_op_inv in H as (_ & _ & _ & E & F). split; [done|].
  eexists. split; [exact E|reflexivity].
Qed.

Lemma check_mode_inv mode cnn u cnn' : check_mode mode cnn = Ok (u, cnn') -> cnn' = cnn.
Proof.
  unfold check_mode. destruct mode as [m|]; [destruct (known_mode m)|];
    cbv [mret build_ret fail]; congruence.
Qed.

Lemma conv_grows n kh kw dh dw mode stddev cnn t cnn' :
  conv n kh kw dh dw mode stddev cnn = Ok (t, cnn') ->
  same_frame cnn cnn' /\ grows cnn cnn' 1.
Proof.
  unfold conv. intros H.
  apply bind_inv in H as (u & c1 & H1 & H). apply check_mode_inv in H1 as ->.
  apply bind_inv in H as (u' & c1 & H1 & H).
  destruct (conv_constraints n kh kw dh dw); [|discriminate H1].
  injection H1 as _ <-.
  apply bind_inv in H as (c & c2 & H1 & H). injection H1 as <- <-.
  by apply add_op_grows in H.
Qed.

Lemma mpool_grows kh kw dh dw mode cnn t cnn' :
  mpool kh kw dh dw mode cnn = Ok (t, cnn') ->
  same_frame cnn cnn' /\ grows cnn cnn' 1.
Proof.
  unfold mpool. intros H.
  apply bind_inv in H as (u & c1 & H1 & H). apply check_mode_inv in H1 as ->.
  apply bind_inv in H as (c & c2 & H1 & H). injection H1 as <- <-.
  by apply add_op_grows in H.
Qed.

Lemma apool_grows kh kw dh dw mode cnn t cnn' :
  apool kh kw dh dw mode cnn = Ok (t, cnn') ->
  same_frame cnn cnn' /\ grows cnn cnn' 1.
Proof.
  unfold apool. intros H.
  apply bind_inv in H as (u & c1 & H1 & H). apply check_mode_inv in H1 as ->.
  apply bind_inv in H as (c & c2 & H1 & H). injection H1 as <- <-.
  by apply add_op_grows in H.
Qed.

Lemma apply_layer_grows prev l lay cnn u cnn' :
  apply_layer prev l lay cnn = Ok (u, cnn') ->
  same_frame cnn cnn' /\ grows cnn cnn' (if is_share lay then 0 else 1).
Proof.
  destruct lay as [ltype args]. unfold apply_layer, is_share. cbn [fst].
  destruct (String.eqb ltype "share").
  { destruct (prev !! l) as [[t size]|]; [|discriminate].
    intros [= <-]. subst cnn'. apply modify_top_frame. }
  destruct (String.eqb ltype "conv").
  { repeat case_match; try discriminate; intros Hrun;
      apply bind_inv in Hrun as (t & c1 & Hop & Hrun);
      cbv [mret build_ret] in Hrun; simplify_eq;
      by apply conv_grows in Hop. }
  destruct (String.eqb ltype "mpool").
  { repeat case_match; try discriminate; intros Hrun;
      apply bind_inv in Hrun as (t & c1 & Hop & Hrun);
      cbv [mret build_ret] in Hrun; simplify_eq;
      by apply mpool_grows in Hop. }
  destruct (String.eqb ltype "apool").
  { repeat case_match; try discriminate; intros Hrun;
      apply bind_inv in Hrun as (t & c1 & Hop & Hrun);
      cbv [mret build_ret] in Hrun; simplify_eq;
      by apply apool_grows in Hop. }
  discriminate.
Qed.

Lemma apply_column_grows prev col : forall l cnn done cnn',
  apply_column prev l col cnn = Ok (done, cnn') ->
  same_frame cnn cnn' /\ grows cnn cnn' (owned_in col) /\ length done = length col.
Proof.
  induction col as [|lay col IH]; intros l cnn done cnn' H.
  - injection H as <- <-. repeat split; [apply grows_refl].
  - cbn [apply_column] in H.
    apply bind_inv in H as (u & c1 & H1 & H).
    apply bind_inv in H as (c & c2 & H2 & H). injection H2 as <- <-.
    apply bind_inv in H as (d & c3 & H3 & H). injection H as <- <-.
    apply apply_layer_grows in H1 as [F1 G1].
    apply IH in H3 as (F2 & G2 & L).
    split; [by eapply same_frame_trans|]. split.
    + unfold owned_in. cbn [map sum_list]. fold (owned_in col).
      by eapply grows_trans.
    + simpl. by rewrite L.
Qed.

Lemma owned_cons col cols : owned (col :: cols) = (owned_in col + owned cols)%nat.
Proof.
  unfold owned, owned_in. cbn [concat]. rewrite map_app.
  induction (map (fun lay : layer => if is_share lay then 0%nat else 1%nat) col)
    as [|x l IH]; simpl; [reflexivity|]. rewrite IH. lia.
Qed.

Lemma apply_columns_grows input cols : forall prev cnn res cnn',
  apply_columns input prev cols cnn = Ok (res, cnn') ->
  same_frame cnn cnn' /\ grows cnn cnn' (owned cols)
  /\ Forall2 (fun r col => length r = length col /\ col <> []) res cols.
Proof.
  induction cols as [|col cols IH]; intros prev cnn res cnn' H.
  - injection H as <- <-. repeat split; [apply grows_refl|constructor].
  - cbn [apply_columns] in H. destruct col as [|lay col]; [discriminate|].
    apply bind_inv in H as (u & c1 & H1 & H). injection H1 as <- <-.
    apply bind_inv in H as (this & c2 & H2 & H).
    apply bind_inv in H as (others & c3 & H3 & H). injection H as <- <-.
    apply apply_column_grows in H2 as (F2 & G2 & L2).
    apply IH in H3 as (F3 & G3 & L3).
    destruct (modify_top_frame input.1 input.2 cnn) as [F1 G1].
    split; [eauto using same_frame_trans|]. split.
    + rewrite owned_cons.
      apply (grows_trans _ _ _ 0 _ G1), (grows_trans _ _ _ _ _ G2 G3).
    + constructor; [|exact L3]. split; [exact L2|discriminate].
Qed.

Lemma lasts_length (res : list (list (tensor * Z))) (cols : list (list layer)) :
  Forall2 (fun r col => length r = length col /\ col <> []) res cols ->
  length (omap (fun col => last col) res) = length cols.
Proof.
  induction 1 as [|r col res cols [Hl Hne] _ IH]; [reflexivity|].
  cbn [omap list_omap]. destruct (last r) as [x|] eqn:E.
  - simpl. by rewrite IH.
  - apply last_None in E. subst r. destruct col; [done|discriminate].
Qed.

Lemma inception_module_inv name cols cnn t cnn' :
  inception_module name cols cnn = Ok (t, cnn') ->
  t = Node (length (ops cnn) + owned cols)
  /\ top_layer cnn' = t
  /\ (exists added inputs,
        ops cnn' = (ops cnn ++ added
                    ++ [mk_op name (bool_decide (is_Some (saved_primary cnn)))
                              Concat inputs (top_size cnn')])%list
        /\ length added = owned cols
        /\ length inputs = length cols)
  /\ scope cnn' = scope cnn
  /\ aux_top_layer cnn' = aux_top_layer cnn
  /\ aux_top_size cnn' = aux_top_size cnn
  /\ saved_primary cnn' = saved_primary cnn
  /\ use_batch_norm cnn' = use_batch_norm cnn
  /\ modules cnn' = (modules cnn ++ [(name, cols)])%list.
Proof.
  unfold inception_module. intros H.
  apply bind_inv in H as (c & c0 & H0 & H). injection H0 as <- <-.
  apply bind_inv in H as (u & c1 & H1 & H). injection H1 as H1.
  apply bind_inv in H as (res & c2 & H2 & H).
  apply bind_inv in H as (t' & c3 & H3 & H).
  apply bind_inv in H as (u' & c4 & H4 & H). injection H4 as H4.
  injection H as Hc Ht.
  apply apply_columns_grows in H2 as (F2 & (added & E2 & L2) & R2).
  apply add_op_inv in H3 as (Et & T3 & S3 & E3 & F3).
  destruct F2 as (A2 & B2 & C2 & D2 & _ & _ & _ & G2 & M2).
  destruct F3 as (A3 & B3 & C3 & D3 & _ & _ & _ & G3 & M3).
  subst. cbn in *.
  rewrite E2, length_app, L2 in *.
  split; [reflexivity|]. split; [congruence|]. split.
  - exists added, (map fst (omap (fun col => last col) res)).
    split; [|split; [done|]].
    + rewrite E3, <- app_assoc. by rewrite G2, C2, S3.
    + rewrite length_map. by apply (lasts_length res cols).
  - repeat split; congruence.
Qed.

(** Every module definition of the file returns, on every builder, when
    the integers it is given are positive. *)
Lemma module_definitions_return (name : string) (cols : list (list layer))
    (cnn : builder) :
  module_cols cols -> all_positive cols = true ->
  is_ok (inception_module name cols cnn) = true.
Proof.
  intros Hcols Hpos. destruct cnn as [tl ts atl ats sp bn pt tf df sc os ms].
  destruct Hcols as [n| |n| |pooltype| | | | | | |k l m n|].
  1, 3: destruct n as [|p|p]; try (vm_compute in Hpos; discriminate Hpos).
  12: destruct k as [|pk|pk]; try (vm_compute in Hpos; discriminate Hpos);
      destruct l as [|pl|pl]; try (vm_compute in Hpos; discriminate Hpos);
      destruct m as [|pm|pm]; try (vm_compute in Hpos; discriminate Hpos);
      destruct n as [|pn|pn]; try (vm_compute in Hpos; discriminate Hpos).
  5: unfold inception_v3_e_cols; destruct (String.eqb pooltype "max").
  all: cbv -[app length Z.add Nat.add bool_decide]; reflexivity.
Qed.

(** X8: with the column list of any module definition of the file, for
    any positive value of its integer parameters, on any builder state,
    the composer returns.  Its result is the new top tensor, a
    concatenation with one input per column, added under the module's
    name after exactly one operation per descriptor that is not a share;
    the scope, the auxiliary tensor and the batch-norm flag are as
    before, and the column list is recorded. *)
Theorem module_definitions_apply (name : string) (cols : list (list layer))
    (cnn : builder) :
  module_cols cols ->
  all_positive cols = true ->
  exists t cnn',
    inception_module name cols cnn = Ok (t, cnn')
    /\ t = Node (length (ops cnn) + owned cols)
    /\ top_layer cnn' = t
    /\ (exists added inputs,
          ops cnn' = (ops cnn ++ added
                      ++ [mk_op name (bool_decide (is_Some (saved_primary cnn)))
                                Concat inputs (top_size cnn')])%list
          /\ length added = owned cols
          /\ length inputs = length cols)
    /\ scope cnn' = scope cnn
    /\ aux_top_layer cnn' = aux_top_layer cnn
    /\ aux_top_size cnn' = aux_top_size cnn
    /\ saved_primary cnn' = saved_primary cnn
    /\ use_batch_norm cnn' = use_batch_norm cnn
    /\ modules cnn' = (modules cnn ++ [(name, cols)])%list.
Proof.
  intros Hcols Hpos.
  pose proof (module_definitions_return name cols cnn Hcols Hpos) as Hok.
  destruct (inception_module name cols cnn) as [[t cnn']|e] eqn:E;
    [|discriminate Hok].
  exists t, cnn'. split; [reflexivity|]. by apply inception_module_inv.
Qed.

Lemma module_definitions_apply_witness :
  exists t cnn',
    inception_module "incept_v4_ra" (inception_v4_ra_cols 192 224 256 384)
      (new images0 3 true true "NHWC") = Ok (t, cnn')
    /\ t = Node (length (ops (new images0 3 true true "NHWC"))
                 + owned (inception_v4_ra_cols 192 224 256 384))
    /\ top_layer cnn' = t
    /\ (exists added inputs,
          ops cnn' = (ops (new images0 3 true true "NHWC") ++ added
                      ++ [mk_op "incept_v4_ra"
                            (bool_decide
                               (is_Some (saved_primary (new images0 3 true true "NHWC"))))
                            Concat inputs (top_size cnn')])%list
          /\ length added = owned (inception_v4_ra_cols 192 224 256 384)
          /\ length inputs = length (inception_v4_ra_cols 192 224 256 384))
    /\ scope cnn' = scope (new images0 3 true true "NHWC")
    /\ aux_top_layer cnn' = aux_top_layer (new images0 3 true true "NHWC")
    /\ aux_top_size cnn' = aux_top_size (new images0 3 true true "NHWC")
    /\ saved_primary cnn' = saved_primary (new images0 3 true true "NHWC")
    /\ use_batch_norm cnn' = use_batch_norm (new images0 3 true true "NHWC")
    /\ modules cnn'
       = (modules (new images0 3 true true "NHWC")
          ++ [("incept_v4_ra", inception_v4_ra_cols 192 224 256 384)])%list.
Proof.
  apply (module_definitions_apply "incept_v4_ra" (inception_v4_ra_cols 192 224 256 384)
           (new images0 3 true true "NHWC")).
  - exact (cols_v4_ra 192 224 256 384).
  - vm_compute. reflexivity.
Defined.

(** With a channel count that is not positive a module definition is
    refused: the convolution it asks for breaks the constraints. *)
Lemma module_refuses_nonpositive (n : Z) (cnn : builder) :
  n <= 0 -> inception_v3_a n cnn = Err (PyError "ValueError").
Proof.
  intros Hn. destruct cnn as [tl ts atl ats sp bn pt tf df sc os ms].
  destruct n as [|p|p]; [| lia |]; cbv -[app length Z.add Nat.add bool_decide];
    reflexivity.
Qed.

(** X9: the channel count each module definition leaves, as a function
    of the channel count [w] it finds, for positive values of its
    integer parameters.  The repeated modules are insensitive to [w] (v3
    "a" with parameter [n]: 224 + n, v3 "c": 768, v3 "e": 2048, v4 "A":
    384, v4 "B": 1024, v4 "C": 1536, v4 stem "sb": 192); the modules
    with a pooling column add to it (v3 "b": w + 480, v3 "d": w + 512,
    v4 "sa": w + 96, v4 "sc": w + 192, v4 "ra": w + n + m, v4 "rb":
    w + 512). *)
Theorem module_output_widths (cnn : builder) :
  (forall n, 0 < n -> top_size_after (inception_v3_a n) cnn = Some (224 + n))
  /\ top_size_after inception_v3_b cnn = Some (top_size cnn + 480)
  /\ (forall n, 0 < n -> top_size_after (inception_v3_c n) cnn = Some 768)
  /\ top_size_after inception_v3_d cnn = Some (top_size cnn + 512)
  /\ (forall pooltype, top_size_after (inception_v3_e pooltype) cnn = Some 2048)
  /\ top_size_after inception_v4_a cnn = Some 384
  /\ top_size_after inception_v4_b cnn = Some 1024
  /\ top_size_after inception_v4_c cnn = Some 1536
  /\ top_size_after inception_v4_sa cnn = Some (top_size cnn + 96)
  /\ top_size_after inception_v4_sb cnn = Some 192
  /\ top_size_after inception_v4_sc cnn = Some (top_size cnn + 192)
  /\ (forall k l m n, 0 < k -> 0 < l -> 0 < m -> 0 < n ->
        top_size_after (inception_v4_ra k l m n) cnn = Some (top_size cnn + n + m))
  /\ top_size_after inception_v4_rb cnn = Some (top_size cnn + 512).
Proof.
  destruct cnn as [tl ts atl ats sp bn pt tf df sc os ms].
  repeat split; intros;
    repeat match goal with
           | H : 0 < ?z |- _ => destruct z as [|?|?]; try lia; clear H
           end;
    try (unfold inception_v3_e, inception_v3_e_cols;
         destruct (String.eqb pooltype "max"));
    cbv -[app length Z.add Nat.add bool_decide]; f_equal; lia.
Qed.

Lemma module_output_widths_witness :
  top_size_after (inception_v3_a 32) (new images0 192 true true "NHWC")
  = Some (224 + 32).
Proof.
  apply (proj1 (module_output_widths (new images0 192 true true "NHWC")) 32).
  lia.
Defined.

(** *** The auxiliary head *)

(** X10: [incept_v3_aux] runs at most once on a builder.  On a builder
    with no auxiliary tensor captured (and not switched to the auxiliary
    branch) it returns: the tensor it captures is the primary top tensor,
    four operations are added, all on the auxiliary branch, the auxiliary
    tensor becomes the last of them with 768 channels, and the primary
    top tensor and its channel count are as before.  A second call fails
    on the assertion. *)
Theorem incept_v3_aux_once (cnn : builder) :
  aux_top_layer cnn = None ->
  saved_primary cnn = None ->
  exists cnn',
    incept_v3_aux cnn = Ok (tt, cnn')
    /\ top_layer cnn' = top_layer cnn
    /\ top_size cnn' = top_size cnn
    /\ aux_top_layer cnn' = Some (Node (length (ops cnn) + 3))
    /\ aux_top_size cnn' = 768
    /\ saved_primary cnn' = None
    /\ (exists first added,
          ops cnn' = (ops cnn ++ first :: added)%list
          /\ length added = 3%nat
          /\ op_inputs first = [top_layer cnn]
          /\ Forall (fun o => op_aux o = true) (first :: added))
    /\ incept_v3_aux cnn' = Err (PyError "AssertionError").
Proof.
  destruct cnn as [tl ts atl ats sp bn pt tf df sc os ms].
  cbn [aux_top_layer saved_primary]. intros -> ->.
  eexists. split; [cbv -[app length Z.add Nat.add]; reflexivity|].
  cbn [top_layer top_size aux_top_layer aux_top_size saved_primary ops].
  split; [reflexivity|]. split; [reflexivity|]. split.
  { do 2 f_equal. rewrite !length_app. cbn [length]. lia. }
  split; [reflexivity|]. split; [reflexivity|]. split.
  - eexists _, [_; _; _]. split; [|split; [reflexivity|split]].
    + rewrite <- !app_assoc. reflexivity.
    + reflexivity.
    + repeat constructor.
  - reflexivity.
Qed.

Lemma incept_v3_aux_once_witness :
  exists cnn',
    incept_v3_aux (new images0 3 true true "NHWC") = Ok (tt, cnn')
    /\ top_layer cnn' = top_layer (new images0 3 true true "NHWC")
    /\ top_size cnn' = top_size (new images0 3 true true "NHWC")
    /\ aux_top_layer cnn'
       = Some (Node (length (ops (new images0 3 true true "NHWC")) + 3))
    /\ aux_top_size cnn' = 768
    /\ saved_primary cnn' = None
    /\ (exists first added,
          ops cnn' = (ops (new images0 3 true true "NHWC") ++ first :: added)%list
          /\ length added = 3%nat
          /\ op_inputs first = [top_layer (new images0 3 true true "NHWC")]
          /\ Forall (fun o => op_aux o = true) (first :: added))
    /\ incept_v3_aux cnn' = Err (PyError "AssertionError").
Proof.
  apply (incept_v3_aux_once (new images0 3 true true "NHWC")).
  - reflexivity.
  - reflexivity.
Defined.

(** *** The two constructions *)

Lemma forallb_batch_normed (l : list named_op) :
  forallb batch_normed l = true -> Forall (fun o => batch_normed o = true) l.
Proof.
  induction l as [|o l IH]; simpl; intros H; constructor;
    apply andb_prop in H as [H1 H2]; auto.
Qed.

(** X11: both constructions switch batch normalisation on before their
    first operation, so every convolution they add is batch-normalised:
    those of the stem, those of the modules and, when the auxiliary
    head runs, those of the head. *)
Theorem convolutions_batch_normed (self : Inception) (images : tensor) :
  (exists last cnn,
     _construct_inception3_build self images = Ok (last, cnn)
     /\ use_batch_norm cnn = true
     /\ Forall (fun o => batch_normed o = true) (ops cnn))
  /\ (exists last cnn,
        _construct_inception4_build self images = Ok (last, cnn)
        /\ use_batch_norm cnn = true
        /\ Forall (fun o => batch_normed o = true) (ops cnn)).
Proof.
  destruct self as [aux sz df model shp]. split.
  - destruct aux; eexists _, _; (split; [vm_compute; reflexivity|]);
      (split; [reflexivity|]); apply forallb_batch_normed; vm_compute; reflexivity.
  - eexists _, _; (split; [vm_compute; reflexivity|]);
      (split; [reflexivity|]); apply forallb_batch_normed; vm_compute; reflexivity.
Qed.

(** X12: the inception3 construction completes, and the calls it makes
    on the builder are, in order: the seven stem operations (three
    convolutions, a max pooling, two convolutions, a max pooling), 3
    times module "a", module "b", 4 times module "c", the four
    operations of the auxiliary head if and only if [_auxiliary] is set,
    module "d", twice module "e", the 8x8 average pooling and the
    reshape to [[-1, 2048]]. *)
Theorem inception3_sequence (self : Inception) (images : tensor) :
  exists last cnn,
    _construct_inception3_build self images = Ok (last, cnn)
    /\ steps (ops cnn)
       = ([layer_call (Conv 32 3 3 (Some 2) (Some 2) (Some "VALID") None true);
           layer_call (Conv 32 3 3 (Some 1) (Some 1) (Some "VALID") None true);
           layer_call (Conv 64 3 3 (Some 1) (Some 1) (Some "SAME") None true);
           layer_call (MPool 3 3 2 2 "VALID");
           layer_call (Conv 80 1 1 (Some 1) (Some 1) (Some "VALID") None true);
           layer_call (Conv 192 3 3 (Some 1) (Some 1) (Some "VALID") None true);
           layer_call (MPool 3 3 2 2 "VALID")]
          ++ replicate 3 (module_call "incept_v3_a")
          ++ [module_call "incept_v3_b"]
          ++ replicate 4 (module_call "incept_v3_c")
          ++ (if _auxiliary self
              then [layer_call (APool 5 5 3 3 "VALID");
                    layer_call (Conv 128 1 1 None None (Some "SAME") None true);
                    layer_call (Conv 768 5 5 None None (Some "VALID")
                                     (Some 0.01%Q) true);
                    layer_call (Reshape [-1; 768])]
              else [])
          ++ [module_call "incept_v3_d"]
          ++ replicate 2 (module_call "incept_v3_e")
          ++ [layer_call (APool 8 8 1 1 "VALID");
              layer_call (Reshape [-1; 2048])])%list.
Proof.
  destruct self as [aux sz df model shp].
  destruct aux; eexists _, _; split; vm_compute; reflexivity.
Qed.

(** X13: the channel counts the inception3 construction reaches are
    those its comments give: 256, 288, 288 after the three "a" modules,
    768 after "b" and after each "c", 1280 after "d", 2048 after each
    "e".  The width 2048 that the final reshape is given is the channel
    count of the tensor it reshapes, and stays the channel count of the
    result; the auxiliary head, if it runs, changes none of this. *)
Theorem inception3_widths (self : Inception) (images : tensor) :
  exists last cnn,
    _construct_inception3_build self images = Ok (last, cnn)
    /\ module_widths (ops cnn)
       = [256; 288; 288; 768; 768; 768; 768; 768; 1280; 2048; 2048]
    /\ top_layer cnn = last
    /\ top_size cnn = 2048
    /\ channels_of cnn last = Some 2048
    /\ op_kind <$> last_op cnn = Some (Reshape [-1; 2048]).
Proof.
  destruct self as [aux sz df model shp].
  destruct aux; eexists _, _; (split; [vm_compute; reflexivity|]);
    repeat split; vm_compute; reflexivity.
Qed.



End InceptionMore.
